(** * Intelligent PDF Summarizer: the function app, embedded and verified

    A shallow embedding of [function_app.py]: the blob trigger, the
    orchestrator [process_document] and its three activities
    [analyze_pdf], [summarize_text] and [write_doc].

    Python values are modelled by the types the code uses them at;
    exceptions by a [result] sum; the process state (environment, blob
    containers, clock, remote services, log) by an explicit [world]
    threaded through a small state-and-exception monad. *)

From stdpp Require Import gmap strings list fin_maps.
From Stdlib Require Import ZArith QArith DecimalString Ascii.

Open Scope string_scope.
Open Scope list_scope.
Open Scope nat_scope.

(** ** Exceptions and results *)

(** A subscript [v[k]]: a string key or an integer index. *)
Inductive subscript :=
| SKey (k : string)
| SIdx (i : nat).

(** The Python exceptions the code can raise. [ServiceError] stands for
    whatever a remote collaborator call raises (network failure, HTTP error
    raised by an SDK); [Exception_] is a bare [Exception(msg)]. *)
Inductive exn :=
| KeyError (k : subscript)
| IndexError
| TypeError
| ValueError
| ResourceNotFoundError
| ResourceExistsError
| JSONDecodeError
| ServiceError (why : string)
| Exception_ (msg : string).

Inductive result (A : Type) :=
| Ok (v : A)
| Raise (e : exn).
Arguments Ok {A} v.
Arguments Raise {A} e.

Definition is_ok {A} (r : result A) : bool :=
  match r with Ok _ => true | Raise _ => false end.

(** ** Python strings *)

Module str.

(** [c in s] for a one-character [c]. *)
Fixpoint has_char (c : ascii) (s : string) : bool :=
  match s with
  | EmptyString => false
  | String d s' => if Ascii.eqb c d then true else has_char c s'
  end.

(** Scan of [s.split(sep)] for a non-empty [sep]: the segment under
    construction and the segments after it. [skip] counts the characters
    of a separator occurrence that are still to be dropped. *)
Fixpoint split_go (sep : string) (skip : nat) (s : string)
  : string * list string :=
  match s with
  | EmptyString => (EmptyString, [])
  | String c s' =>
      match skip with
      | S k => split_go sep k s'
      | O =>
          if String.prefix sep s
          then (EmptyString,
                let '(h, t) := split_go sep (String.length sep - 1) s' in
                h :: t)
          else let '(h, t) := split_go sep 0 s' in (String c h, t)
      end
  end.

(** [s.split(sep)]: [ValueError] on an empty separator, otherwise the
    segments between the non-overlapping occurrences of [sep], found
    left to right; the list is never empty. *)
Definition split (sep s : string) : result (list string) :=
  match sep with
  | EmptyString => Raise ValueError
  | _ => let '(h, t) := split_go sep 0 s in Ok (h :: t)
  end.

(** Scan of [s.replace(old, new)] for a non-empty [old]. *)
Fixpoint replace_go (old new : string) (skip : nat) (s : string) : string :=
  match s with
  | EmptyString => EmptyString
  | String c s' =>
      match skip with
      | S k => replace_go old new k s'
      | O =>
          if String.prefix old s
          then new +:+ replace_go old new (String.length old - 1) s'
          else String c (replace_go old new 0 s')
      end
  end.

(** [s.replace("", new)] puts [new] before every character and at the
    end. *)
Fixpoint intersperse (new s : string) : string :=
  match s with
  | EmptyString => new
  | String c s' => new +:+ String c (intersperse new s')
  end.

(** [s.replace(old, new)]: every non-overlapping occurrence of [old],
    found left to right, is replaced by [new]. *)
Definition replace (old new s : string) : string :=
  match old with
  | EmptyString => intersperse new s
  | _ => replace_go old new 0 s
  end.

(** [str(n)] for an [int]. *)
Definition of_int (z : Z) : string := NilZero.string_of_int (Z.to_int z).

(** [str(n)] for a non-negative [int]. *)
Definition of_nat (n : nat) : string := NilZero.string_of_uint (Nat.to_uint n).

(** The ["%0wd"] format of a non-negative number: zero-padded on the left
    to width [w], never truncated. *)
Definition zero_padded (w n : nat) : string :=
  let digits := of_nat n in
  String.concat "" (List.repeat "0" (w - String.length digits)) +:+ digits.

End str.

(** [l[i]] on a Python list: [IndexError] out of range. *)
Definition list_getitem {A} (l : list A) (i : nat) : result A :=
  match l !! i with
  | Some x => Ok x
  | None => Raise IndexError
  end.

(** ** Logging *)

Inductive log_level := INFO | ERROR.

(** ** JSON values, as [response.json()] returns them *)

Inductive jvalue :=
| JNull
| JBool (b : bool)
| JInt (z : Z)
| JFloat (q : Q)
| JStr (s : string)
| JArr (l : list jvalue)
| JObj (o : gmap string jvalue).

(** [v[k]] on a parsed JSON value: a [dict] has only string keys, a [list]
    only integer indices, a [str] yields its one-character substrings, and
    nothing else can be subscripted. *)
Definition jvalue_getitem (v : jvalue) (k : subscript) : result jvalue :=
  match v, k with
  | JObj o, SKey s =>
      match o !! s with
      | Some x => Ok x
      | None => Raise (KeyError k)
      end
  | JObj _, SIdx _ => Raise (KeyError k)
  | JArr l, SIdx i => list_getitem l i
  | JStr s, SIdx i =>
      match String.get i s with
      | Some c => Ok (JStr (String c EmptyString))
      | None => Raise IndexError
      end
  | _, _ => Raise TypeError
  end.

(** One call of [logging.info] or [logging.error]. The text is
    [message], followed by [str(v)] when [interpolated] is [Some v]: the
    rendering of a parsed JSON value by [str] is not modelled, the record
    keeps the value itself. *)
Record log_record := {
  level : log_level;
  message : string;
  interpolated : option jvalue
}.

(** [a + b] where [a] is a [str]: [TypeError] unless [b] is a [str] too. *)
Definition str_add (a : string) (b : jvalue) : result string :=
  match b with
  | JStr s => Ok (a +:+ s)
  | _ => Raise TypeError
  end.

(** ** [datetime] *)

Module datetime.

Record t := {
  year : nat; month : nat; day : nat;
  hour : nat; minute : nat; second : nat;
  microsecond : nat
}.

(** [str(d)] is [d.isoformat(sep=' ')]: the fraction is printed only when
    the microseconds are not zero. [datetime.now()] is naive, so no UTC
    offset follows. *)
Definition to_str (d : t) : string :=
  str.zero_padded 4 (year d) +:+ "-" +:+ str.zero_padded 2 (month d) +:+ "-"
  +:+ str.zero_padded 2 (day d) +:+ " "
  +:+ str.zero_padded 2 (hour d) +:+ ":" +:+ str.zero_padded 2 (minute d)
  +:+ ":" +:+ str.zero_padded 2 (second d)
  +:+ match microsecond d with
      | O => ""
      | _ => "." +:+ str.zero_padded 6 (microsecond d)
      end.

End datetime.

(** ** The collaborators' data *)

(** A line and a page of the Document-Analysis result. *)
Module DocumentLine.
Record t := { content : string }.
End DocumentLine.

Module DocumentPage.
Record t := { lines : list DocumentLine.t }.
End DocumentPage.

(** The chat-completions request that [summarize_text] builds. *)
Module chat.
Record message := { role : string; content : string }.
Record body := {
  messages : list message;
  max_tokens : Z;
  temperature : Q
}.
End chat.

Record http_request := {
  url : string;
  headers : gmap string string;
  json : chat.body
}.

(** A [requests.Response]: [json_] is what [response.json()] returns or
    raises. *)
Module Response.
Record t := {
  status_code : Z;
  text : string;
  json_ : result jvalue
}.
End Response.

(** ** The process state *)

(** Everything the function app reads or changes.
    - [environ] is [os.environ];
    - [containers] is the storage account behind [blob_service_client]:
      container name to blob name to contents;
    - [clock] gives the successive readings of [datetime.now()];
    - [analysis_service] and [openai_service] are the remote collaborators:
      the reply to the n-th call, which may be an exception; the calls made
      so far are recorded in [analysis_calls] and [http_posts];
    - [logs] are the records written through [logging];
    - [instances] are the orchestrations started through the durable
      client: name and input. *)
Record world := {
  environ : gmap string string;
  containers : gmap string (gmap string string);
  clock : nat -> datetime.t;
  clock_reads : nat;
  analysis_service : nat -> string -> string -> result (list DocumentPage.t);
  analysis_calls : list (string * string);
  openai_service : nat -> http_request -> result Response.t;
  http_posts : list http_request;
  logs : list log_record;
  instances : list (string * string)
}.

(** ** The monad of Python code: state and exceptions *)

Definition M (A : Type) : Type := world -> result A * world.

Definition ret {A} (x : A) : M A := fun w => (Ok x, w).

Definition raise {A} (e : exn) : M A := fun w => (Raise e, w).

Definition bind {A B} (m : M A) (f : A -> M B) : M B :=
  fun w =>
    match m w with
    | (Ok x, w') => f x w'
    | (Raise e, w') => (Raise e, w')
    end.

Definition lift {A} (r : result A) : M A := fun w => (r, w).

#[global] Instance M_ret : MRet M := @ret.
#[global] Instance M_bind : MBind M := fun A B f m => bind m f.

(** *** Primitives *)

Definition set_logs (l : list log_record) (w : world) : world :=
  {| environ := environ w; containers := containers w; clock := clock w;
     clock_reads := clock_reads w; analysis_service := analysis_service w;
     analysis_calls := analysis_calls w; openai_service := openai_service w;
     http_posts := http_posts w; logs := l; instances := instances w |}.

Definition set_containers (c : gmap string (gmap string string)) (w : world)
  : world :=
  {| environ := environ w; containers := c; clock := clock w;
     clock_reads := clock_reads w; analysis_service := analysis_service w;
     analysis_calls := analysis_calls w; openai_service := openai_service w;
     http_posts := http_posts w; logs := logs w; instances := instances w |}.

Definition set_clock_reads (n : nat) (w : world) : world :=
  {| environ := environ w; containers := containers w; clock := clock w;
     clock_reads := n; analysis_service := analysis_service w;
     analysis_calls := analysis_calls w; openai_service := openai_service w;
     http_posts := http_posts w; logs := logs w; instances := instances w |}.

Definition set_analysis_calls (l : list (string * string)) (w : world)
  : world :=
  {| environ := environ w; containers := containers w; clock := clock w;
     clock_reads := clock_reads w; analysis_service := analysis_service w;
     analysis_calls := l; openai_service := openai_service w;
     http_posts := http_posts w; logs := logs w; instances := instances w |}.

Definition set_http_posts (l : list http_request) (w : world) : world :=
  {| environ := environ w; containers := containers w; clock := clock w;
     clock_reads := clock_reads w; analysis_service := analysis_service w;
     analysis_calls := analysis_calls w; openai_service := openai_service w;
     http_posts := l; logs := logs w; instances := instances w |}.

Definition set_instances (l : list (string * string)) (w : world) : world :=
  {| environ := environ w; containers := containers w; clock := clock w;
     clock_reads := clock_reads w; analysis_service := analysis_service w;
     analysis_calls := analysis_calls w; openai_service := openai_service w;
     http_posts := http_posts w; logs := logs w; instances := l |}.

Module logging.
Definition log (lvl : log_level) (msg : string) (v : option jvalue)
  : M unit :=
  fun w =>
    (Ok tt,
     set_logs
       (logs w ++ [{| level := lvl; message := msg; interpolated := v |}]) w).
(** [logging.info(msg)] *)
Definition info (msg : string) : M unit := log INFO msg None.
(** [logging.error(msg)] *)
Definition error (msg : string) : M unit := log ERROR msg None.
(** [logging.info(f"{msg}{v}")] for a parsed JSON value [v] *)
Definition info_f (msg : string) (v : jvalue) : M unit :=
  log INFO msg (Some v).
End logging.

Module os.
(** [os.environ[k]] *)
Definition environ_getitem (k : string) : M string :=
  fun w =>
    match environ w !! k with
    | Some v => (Ok v, w)
    | None => (Raise (KeyError (SKey k)), w)
    end.
(** [os.environ.get(k, default)] *)
Definition environ_get (k dflt : string) : M string :=
  fun w => (Ok (default dflt (environ w !! k)), w).
End os.

(** The storage account. Reads and writes are decided by the containers'
    contents alone. *)
Module blob_service_client.
(** [get_container_client(c).get_blob_client(n).download_blob().read()] *)
Definition download_blob (container name : string) : M string :=
  fun w =>
    match containers w !! container ≫= (λ c, c !! name) with
    | Some data => (Ok data, w)
    | None => (Raise ResourceNotFoundError, w)
    end.
(** [get_container_client(c).upload_blob(name=n, data=d)]: [overwrite]
    is left at its default [False], so an existing blob is an error;
    [data] must be a [str]. *)
Definition upload_blob (container name : string) (data : jvalue) : M unit :=
  fun w =>
    match data with
    | JStr d =>
        match containers w !! container with
        | None => (Raise ResourceNotFoundError, w)
        | Some c =>
            match c !! name with
            | Some _ => (Raise ResourceExistsError, w)
            | None =>
                (Ok tt,
                 set_containers
                   (<[container := <[name := d]> c]> (containers w)) w)
            end
        end
    | _ => (Raise TypeError, w)
    end.
End blob_service_client.

(** [datetime.now()] *)
Definition datetime_now : M datetime.t :=
  fun w => (Ok (clock w (clock_reads w)), set_clock_reads (S (clock_reads w)) w).

(** [DocumentAnalysisClient(endpoint, credential)
       .begin_analyze_document("prebuilt-layout", document=d, locale="en-US")
       .result().pages] *)
Definition analyze_document (endpoint document : string)
  : M (list DocumentPage.t) :=
  fun w =>
    (analysis_service w (length (analysis_calls w)) endpoint document,
     set_analysis_calls (analysis_calls w ++ [(endpoint, document)]) w).

Module requests.
(** [requests.post(url, headers=headers, json=data)] *)
Definition post (u : string) (h : gmap string string) (data : chat.body)
  : M Response.t :=
  fun w =>
    let req := {| url := u; headers := h; json := data |} in
    (openai_service w (length (http_posts w)) req,
     set_http_posts (http_posts w ++ [req]) w).
End requests.

Module client.
(** [client.start_new(name, client_input=x)] *)
Definition start_new (orchestration client_input : string) : M unit :=
  fun w =>
    (Ok tt, set_instances (instances w ++ [(orchestration, client_input)]) w).
End client.

(** ** The blob trigger *)

(** [func.InputStream]: the blob's full path and its size, when known. *)
Module InputStream.
Record t := { name : string; length : option Z }.
End InputStream.

(** [str(x)] for an [Optional[int]]. *)
Definition str_of_optional_int (x : option Z) : string :=
  match x with
  | Some z => str.of_int z
  | None => "None"
  end.

Definition blob_trigger (myblob : InputStream.t) : M unit :=
  _ ← logging.info
        ("Python blob trigger function processed blob"
         +:+ "Name: " +:+ InputStream.name myblob
         +:+ "Blob Size: " +:+ str_of_optional_int (InputStream.length myblob)
         +:+ " bytes");
  segments ← lift (str.split "/" (InputStream.name myblob));
  blobName ← lift (list_getitem segments 1);
  client.start_new "process_document" blobName.

(** ** The activities *)

(** The summary dictionary [{"content": ...}] that [summarize_text]
    returns. *)
Module Summary.
Record t := { content : jvalue }.
End Summary.

(** The dictionary [{"blobName": ..., "summary": ...}] that the orchestrator
    hands to [write_doc]. *)
Module WriteDocInput.
Record t := { blobName : string; summary : Summary.t }.
End WriteDocInput.

Definition analyze_pdf (blobName : string) : M string :=
  _ ← logging.info "in analyze_text activity";
  blob ← blob_service_client.download_blob "input" blobName;
  let doc := "" in
  endpoint ← os.environ_getitem "COGNITIVE_SERVICES_ENDPOINT";
  result ← analyze_document endpoint blob;
  mret
    (fold_left
       (fun doc page =>
          fold_left (fun doc line => doc +:+ DocumentLine.content line)
                    (DocumentPage.lines page) doc)
       result doc).

Definition summarize_text (results : string) : M Summary.t :=
  _ ← logging.info "in summarize_text activity";
  endpoint ← os.environ_getitem "AZURE_OPENAI_ENDPOINT";
  api_key ← os.environ_getitem "AZURE_OPENAI_KEY";
  deployment_name ← os.environ_getitem "CHAT_MODEL_DEPLOYMENT_NAME";
  api_version ← os.environ_get "AZURE_OPENAI_API_VERSION" "2025-01-01-preview";
  let url :=
    endpoint +:+ "/openai/deployments/" +:+ deployment_name
    +:+ "/chat/completions?api-version=" +:+ api_version in
  let headers : gmap string string :=
    <["api-key" := api_key]> (<["Content-Type" := "application/json"]> ∅) in
  let data :=
    {| chat.messages :=
         [ {| chat.role := "user";
              chat.content :=
                "Can you explain what the following text is about? "
                +:+ results |} ];
       chat.max_tokens := 200;
       chat.temperature := (7 # 10)%Q |} in
  response ← requests.post url headers data;
  if bool_decide (Response.status_code response ≠ 200%Z)
  then
    _ ← logging.error
          ("Azure OpenAI call failed: "
           +:+ str.of_int (Response.status_code response)
           +:+ " - " +:+ Response.text response);
    raise (Exception_ "Azure OpenAI API call failed")
  else
    response_json ← lift (Response.json_ response);
    choices ← lift (jvalue_getitem response_json (SKey "choices"));
    choice ← lift (jvalue_getitem choices (SIdx 0));
    message ← lift (jvalue_getitem choice (SKey "message"));
    content ← lift (jvalue_getitem message (SKey "content"));
    _ ← logging.info_f "Summary: " content;
    mret {| Summary.content := content |}.

Definition write_doc (results : WriteDocInput.t) : M string :=
  _ ← logging.info "in write_doc activity";
  now ← datetime_now;
  let summary :=
    WriteDocInput.blobName results +:+ "-" +:+ datetime.to_str now in
  let sanitizedSummary := str.replace "." "-" summary in
  let fileName := sanitizedSummary +:+ ".txt" in
  msg ← lift (str_add "uploading to blob"
                (Summary.content (WriteDocInput.summary results)));
  _ ← logging.info msg;
  _ ← blob_service_client.upload_blob "output" fileName
        (Summary.content (WriteDocInput.summary results));
  mret (summary +:+ ".txt").

(** ** The orchestrator *)

(** The three registered activities. The orchestrator names them by the
    strings of [activity_name]. *)
Inductive activity := analyze_pdf_ | summarize_text_ | write_doc_.

#[global] Instance activity_eq_dec : EqDecision activity.
Proof. solve_decision. Defined.

Definition activity_name (a : activity) : string :=
  match a with
  | analyze_pdf_ => "analyze_pdf"
  | summarize_text_ => "summarize_text"
  | write_doc_ => "write_doc"
  end.

(** The type of an activity's input and of its output. *)
Definition arg (a : activity) : Type :=
  match a with
  | analyze_pdf_ => string
  | summarize_text_ => string
  | write_doc_ => WriteDocInput.t
  end.

Definition res (a : activity) : Type :=
  match a with
  | analyze_pdf_ => string
  | summarize_text_ => Summary.t
  | write_doc_ => string
  end.

Module df.
Record RetryOptions := {
  first_retry_interval_in_milliseconds : Z;
  max_number_of_attempts : nat
}.
End df.

(** An orchestrator function is a generator: it yields a task and is
    resumed with the task's result, or returns. [Yield] is
    [v = yield context.call_activity_with_retry(name, retry_options, input)],
    [LoggingInfo] is [v = logging.info(msg)] and [Return] is [return v]. *)
Inductive orchestration :=
| Return (v : jvalue)
| Yield (a : activity) (retry_options : df.RetryOptions) (input : arg a)
        (resume : res a -> orchestration)
| LoggingInfo (msg : string) (resume : jvalue -> orchestration).

Definition process_document (context_input : string) : orchestration :=
  let blobName := context_input in
  let first_retry_interval_in_milliseconds := 5000%Z in
  let max_number_of_attempts := 3 in
  let retry_options :=
    {| df.first_retry_interval_in_milliseconds :=
         first_retry_interval_in_milliseconds;
       df.max_number_of_attempts := max_number_of_attempts |} in
  Yield analyze_pdf_ retry_options blobName (fun result =>
  Yield summarize_text_ retry_options result (fun result2 =>
  Yield write_doc_ retry_options
        {| WriteDocInput.blobName := blobName;
           WriteDocInput.summary := result2 |} (fun result3 =>
  LoggingInfo ("Successfully uploaded summary to " +:+ result3) (fun none =>
  Return none)))).

(** ** The workflow engine *)

(** What the engine records about an instance, in order. *)
Inductive event :=
| TaskScheduled (a : activity) (input : arg a) (attempt : nat)
| TaskCompleted (a : activity) (output : res a)
| TaskFailed (a : activity) (e : exn)
| TimerFired (milliseconds : Z)
| Logged (lvl : log_level) (msg : string).

(** The terminal states of an instance. *)
Inductive runtime_status :=
| Completed (output : jvalue)
| Failed (e : exn).

Section Engine.

(** The engine is independent of what the activities do: [W] is the
    state they act on, [run_activity] one attempt of an activity. *)
Context {W : Type}.
Variable run_activity : forall a : activity, arg a -> W -> result (res a) * W.

(** Modelled from the spec: the engine's [runStep], whose code is the
    Durable Functions runtime and not part of the repository. It calls
    the step; on failure it waits the policy's delay, the same each time,
    and tries again, up to [max_attempts] attempts in all; when all of
    them fail, the last error is reported. [retries] is the number of
    attempts still allowed after this one; the events of the attempts
    are returned in order. *)
Fixpoint attempts (retries attempt : nat) (a : activity)
         (retry_options : df.RetryOptions) (input : arg a) (w : W)
  : result (res a) * W * list event :=
  match run_activity a input w with
  | (Ok v, w) =>
      (Ok v, w, [TaskScheduled a input attempt; TaskCompleted a v])
  | (Raise e, w) =>
      match retries with
      | O => (Raise e, w, [TaskScheduled a input attempt; TaskFailed a e])
      | S retries =>
          let delay :=
            df.first_retry_interval_in_milliseconds retry_options in
          let '(r, w, h) :=
            attempts retries (S attempt) a retry_options input w in
          (r, w,
           [TaskScheduled a input attempt; TaskFailed a e; TimerFired delay]
           ++ h)
      end
  end.

(** [context.call_activity_with_retry(name, retry_options, input)]: the
    first attempt is always made, and [max_number_of_attempts - 1]
    retries may follow it. *)
Definition call_activity_with_retry (a : activity)
           (retry_options : df.RetryOptions) (input : arg a) (w : W)
  : result (res a) * W * list event :=
  attempts (df.max_number_of_attempts retry_options - 1) 1
           a retry_options input w.

(** Modelled from the spec: the engine driving an instance, which is
    the Durable Functions runtime too and not part of the repository. A
    step's output resumes the orchestrator; a step that exhausted its attempts
    ends the instance in [Failed], and nothing after it runs. What the
    orchestrator returns is the instance's result; [logging.info]
    returns [None]. The result is the terminal state, the final state of
    the activities' world and the instance's history. *)
Fixpoint run (p : orchestration) (w : W)
  : runtime_status * W * list event :=
  match p with
  | Return v => (Completed v, w, [])
  | Yield a retry_options input resume =>
      match call_activity_with_retry a retry_options input w with
      | (Ok v, w, h) =>
          let '(st, w, h') := run (resume v) w in (st, w, h ++ h')
      | (Raise e, w, h) => (Failed e, w, h)
      end
  | LoggingInfo msg resume =>
      let '(st, w, h) := run (resume JNull) w in
      (st, w, Logged INFO msg :: h)
  end.

End Engine.

Definition status {W} (r : runtime_status * W * list event) : runtime_status :=
  r.1.1.
Definition final_state {W} (r : runtime_status * W * list event) : W := r.1.2.
Definition history {W} (r : runtime_status * W * list event) : list event :=
  r.2.

(** *** What a history shows *)

(** The number of attempts of activity [a]. *)
Definition calls (a : activity) (h : list event) : nat :=
  length
    (List.filter
       (fun ev =>
          match ev with
          | TaskScheduled b _ _ => bool_decide (a = b)
          | _ => false
          end) h).

(** The number of failed attempts of activity [a]. *)
Definition failures (a : activity) (h : list event) : nat :=
  length
    (List.filter
       (fun ev =>
          match ev with
          | TaskFailed b _ => bool_decide (a = b)
          | _ => false
          end) h).

(** The recorded step outputs, in order. *)
Definition outputs (h : list event) : list {a : activity & res a} :=
  omap (fun ev =>
          match ev with
          | TaskCompleted a v => Some (existT a v)
          | _ => None
          end) h.

(** The inputs the steps were invoked with, in order, one per attempt. *)
Definition inputs (h : list event) : list {a : activity & arg a} :=
  omap (fun ev =>
          match ev with
          | TaskScheduled a x _ => Some (existT a x)
          | _ => None
          end) h.

(** The events of the steps other than [a]: everything but the attempts,
    failures and outputs of [a], and the timers. *)
Definition events_but (a : activity) (h : list event) : list event :=
  List.filter
    (fun ev =>
       match ev with
       | TaskScheduled b _ _ | TaskCompleted b _ | TaskFailed b _ =>
           negb (bool_decide (a = b))
       | TimerFired _ => false
       | Logged _ _ => true
       end) h.

(** The order of the steps. *)
Definition position (a : activity) : nat :=
  match a with
  | analyze_pdf_ => 0
  | summarize_text_ => 1
  | write_doc_ => 2
  end.

(** *** Transient failures *)

Section Flaky.

Context {W : Type}.
Variable run_activity : forall a : activity, arg a -> W -> result (res a) * W.
Variable a : activity.


End Flaky.

(** The activities as registered with the app. *)
Definition activities (a : activity) : arg a -> M (res a) :=
  match a with
  | analyze_pdf_ => analyze_pdf
  | summarize_text_ => summarize_text
  | write_doc_ => write_doc
  end.

(** One instance of [process_document] on the function app. *)
Definition start_process_document (blobName : string) (w : world)
  : runtime_status * world * list event :=
  run activities (process_document blobName) w.

(** The shape of the history of one step run with [retries] retries allowed
    from attempt number [attempt] on: it completes at some attempt, or
    fails at every attempt. *)
Inductive step_trace (a : activity) (x : arg a) (delay : Z)
  : nat -> nat -> result (res a) -> list event -> Prop :=
| trace_completed retries attempt v :
    step_trace a x delay retries attempt (Ok v)
               [TaskScheduled a x attempt; TaskCompleted a v]
| trace_exhausted attempt e :
    step_trace a x delay 0 attempt (Raise e)
               [TaskScheduled a x attempt; TaskFailed a e]
| trace_retried retries attempt e out h :
    step_trace a x delay retries (S attempt) out h ->
    step_trace a x delay (S retries) attempt out
               ([TaskScheduled a x attempt; TaskFailed a e; TimerFired delay]
                ++ h).

(** The retry options that [process_document] builds: three attempts, five
    seconds apart. *)
Definition document_retry_options : df.RetryOptions :=
  {| df.first_retry_interval_in_milliseconds := 5000%Z;
     df.max_number_of_attempts := 3 |}.


(** ** The specification's words *)

(** A string with every character replaced by its image under [f]. *)
Fixpoint map_chars (f : ascii -> ascii) (s : string) : string :=
  match s with
  | EmptyString => EmptyString
  | String c s' => String (f c) (map_chars f s')
  end.

(** "Replacing any literal [.] characters with [-]". *)
Definition dots_to_dashes (s : string) : string :=
  map_chars (fun c => if Ascii.eqb c "." then "-"%char else c) s.

(** "All returned text fragments in the order the collaborator returns
    them (page order, then line order within page)". *)
Definition text_fragments (pages : list DocumentPage.t) : list string :=
  concat
    (map (fun page => map DocumentLine.content (DocumentPage.lines page))
         pages).

(** The fragments joined into a single string. *)
Definition concatenation (fragments : list string) : string :=
  fold_right String.append "" fragments.

(** ** Sample runs *)

Definition new_year : datetime.t :=
  {| datetime.year := 2024; datetime.month := 1; datetime.day := 1;
     datetime.hour := 0; datetime.minute := 0; datetime.second := 0;
     datetime.microsecond := 123456 |}.

Definition invoice_pages : list DocumentPage.t :=
  [ {| DocumentPage.lines :=
         [ {| DocumentLine.content := "Invoice " |};
           {| DocumentLine.content := "for " |} ] |};
    {| DocumentPage.lines := [ {| DocumentLine.content := "$500" |} ] |} ].

(** A chat completion whose first choice carries [content]. *)
Definition completion (content : jvalue) : Response.t :=
  {| Response.status_code := 200;
     Response.text := "{...}";
     Response.json_ :=
       Ok (JObj {[ "choices" :=
                     JArr [ JObj {[ "message" :=
                                      JObj {[ "content" := content ]} ]} ] ]}) |}.

(** A reply with status 200 and an empty JSON object as its body. *)
Definition no_choices : Response.t :=
  {| Response.status_code := 200;
     Response.text := "{}";
     Response.json_ := Ok (JObj ∅) |}.

(** A reply of a service that is down. *)
Definition unavailable : Response.t :=
  {| Response.status_code := 503;
     Response.text := "Service Unavailable";
     Response.json_ := Raise JSONDecodeError |}.

(** A function app with its four settings, [invoice123.pdf] in the input
    container, an empty output container, and a summarization service
    that answers every request with [reply]. *)
Definition function_app_with (reply : Response.t) : world :=
  {| environ :=
       {[ "COGNITIVE_SERVICES_ENDPOINT" := "https://di.example";
          "AZURE_OPENAI_ENDPOINT" := "https://oai.example";
          "AZURE_OPENAI_KEY" := "secret";
          "CHAT_MODEL_DEPLOYMENT_NAME" := "gpt" ]};
     containers := {[ "input" := {[ "invoice123.pdf" := "%PDF-1.7" ]};
                      "output" := ∅ ]};
     clock := fun _ => new_year;
     clock_reads := 0;
     analysis_service := fun _ _ _ => Ok invoice_pages;
     analysis_calls := [];
     openai_service := fun _ _ => Ok reply;
     http_posts := [];
     logs := [];
     instances := [] |}.

Definition function_app : world :=
  function_app_with (completion (JStr "A $500 invoice.")).

(** ** More sample apps *)

Definition set_environ (e : gmap string string) (w : world) : world :=
  {| environ := e; containers := containers w; clock := clock w;
     clock_reads := clock_reads w; analysis_service := analysis_service w;
     analysis_calls := analysis_calls w; openai_service := openai_service w;
     http_posts := http_posts w; logs := logs w; instances := instances w |}.

(** The sample app with a summarization service that cannot be reached. *)
Definition unreachable_app : world :=
  {| environ := environ function_app; containers := containers function_app;
     clock := clock function_app; clock_reads := 0;
     analysis_service := analysis_service function_app;
     analysis_calls := [];
     openai_service := fun _ _ => Raise (ServiceError "connection refused");
     http_posts := []; logs := []; instances := [] |}.

(** The sample app with a clock that shows a full second. *)
Definition full_second_app : world :=
  {| environ := environ function_app; containers := containers function_app;
     clock := fun _ =>
       {| datetime.year := 2024; datetime.month := 1; datetime.day := 1;
          datetime.hour := 0; datetime.minute := 0; datetime.second := 0;
          datetime.microsecond := 0 |};
     clock_reads := 0;
     analysis_service := analysis_service function_app;
     analysis_calls := [];
     openai_service := openai_service function_app;
     http_posts := []; logs := []; instances := [] |}.

(** The delays the engine waited before retries, in order. *)
Definition timers (h : list event) : list Z :=
  omap (fun ev =>
          match ev with
          | TimerFired milliseconds => Some milliseconds
          | _ => None
          end) h.

(** The records the orchestrator itself logged. *)
Definition logged (h : list event) : list (log_level * string) :=
  omap (fun ev =>
          match ev with
          | Logged lvl msg => Some (lvl, msg)
          | _ => None
          end) h.

(** * Properties *)

(** ** Strings *)

Lemma prefix_char c d s :
  String.prefix (String c EmptyString) (String d s) = Ascii.eqb c d.
Proof.
  simpl. destruct (Ascii.ascii_dec c d) as [->|Hne].
  - rewrite Ascii.eqb_refl. by destruct s.
  - symmetry. by apply Ascii.eqb_neq.
Qed.

Lemma append_nil_l s : "" +:+ s = s.
Proof. reflexivity. Qed.

Lemma append_cons c s t : String c s +:+ t = String c (s +:+ t).
Proof. reflexivity. Qed.

Lemma split_go_char_absent c s :
  str.has_char c s = false ->
  str.split_go (String c EmptyString) 0 s = (s, []).
Proof.
  induction s as [|d s IH]; [done|].
  cbn [str.has_char str.split_go]. intros H. rewrite prefix_char.
  destruct (Ascii.eqb c d); [done|]. by rewrite (IH H).
Qed.

Lemma split_go_char_sep c a b :
  str.has_char c a = false ->
  str.split_go (String c EmptyString) 0 (a +:+ String c b)
  = (a, let '(h, t) := str.split_go (String c EmptyString) 0 b in h :: t).
Proof.
  induction a as [|d a IH].
  - intros _. rewrite append_nil_l. cbn [str.split_go]. rewrite prefix_char.
    by rewrite Ascii.eqb_refl.
  - rewrite append_cons. cbn [str.has_char str.split_go]. intros H.
    rewrite prefix_char.
    destruct (Ascii.eqb c d); [done|]. by rewrite (IH H).
Qed.

(** ** The blob trigger *)

Lemma blob_trigger_unfold myblob w :
  blob_trigger myblob w
  = let w1 :=
      set_logs
        (logs w ++
         [{| level := INFO;
             message :=
               "Python blob trigger function processed blob"
               +:+ "Name: " +:+ InputStream.name myblob
               +:+ "Blob Size: "
               +:+ str_of_optional_int (InputStream.length myblob)
               +:+ " bytes";
             interpolated := None |}]) w in
    match str.split_go "/" 0 (InputStream.name myblob) with
    | (_, seg :: _) =>
        (Ok tt, set_instances (instances w ++ [("process_document", seg)]) w1)
    | (_, []) => (Raise IndexError, w1)
    end.
Proof.
  unfold blob_trigger, mbind, M_bind, bind, logging.info, logging.log, lift,
    str.split, client.start_new.
  cbn -[str.split_go String.append].
  destruct (str.split_go "/" 0 (InputStream.name myblob)) as [h [|seg t]];
    reflexivity.
Qed.

(** C10. The identifier that the trigger hands to [start_new] is the second
    ['/']-separated segment of the blob's path: a path without ['/'] raises
    [IndexError] and starts nothing; a path [container/seg] or
    [container/seg/rest] starts [process_document] on [seg], whatever
    [rest] is; ["input/sub/file.pdf"] starts it on ["sub"]. *)
Theorem blob_trigger_second_segment (myblob : InputStream.t) (w : world) :
  (str.has_char "/" (InputStream.name myblob) = false ->
   (blob_trigger myblob w).1 = Raise IndexError
   /\ instances (blob_trigger myblob w).2 = instances w)
  /\ (forall container seg : string,
        str.has_char "/" container = false ->
        str.has_char "/" seg = false ->
        InputStream.name myblob = container +:+ "/" +:+ seg ->
        (blob_trigger myblob w).1 = Ok tt
        /\ instances (blob_trigger myblob w).2
           = instances w ++ [("process_document", seg)])
  /\ (forall container seg rest : string,
        str.has_char "/" container = false ->
        str.has_char "/" seg = false ->
        InputStream.name myblob = container +:+ "/" +:+ seg +:+ "/" +:+ rest ->
        (blob_trigger myblob w).1 = Ok tt
        /\ instances (blob_trigger myblob w).2
           = instances w ++ [("process_document", seg)])
  /\ (InputStream.name myblob = "input/sub/file.pdf" ->
      instances (blob_trigger myblob w).2
      = instances w ++ [("process_document", "sub")]).
Proof.
  rewrite blob_trigger_unfold. cbv zeta.
  split; [|split; [|split]].
  - intros H. by rewrite (split_go_char_absent _ _ H).
  - intros container seg Hc Hs ->.
    change (container +:+ "/" +:+ seg)
      with (container +:+ String "/" seg).
    rewrite (split_go_char_sep _ _ _ Hc), (split_go_char_absent _ _ Hs).
    done.
  - intros container seg rest Hc Hs ->.
    change (container +:+ "/" +:+ seg +:+ "/" +:+ rest)
      with (container +:+ String "/" (seg +:+ String "/" rest)).
    rewrite (split_go_char_sep _ _ _ Hc), (split_go_char_sep _ _ _ Hs).
    by destruct (str.split_go "/" 0 rest).
  - intros ->. reflexivity.
Qed.

(** The blob ["input/report.v2.pdf"] starts [process_document] on
    ["report.v2.pdf"]. *)
Lemma blob_trigger_second_segment_witness :
  let myblob :=
    {| InputStream.name := "input/report.v2.pdf";
       InputStream.length := Some 1024%Z |} in
  (blob_trigger myblob function_app).1 = Ok tt
  /\ instances (blob_trigger myblob function_app).2
     = instances function_app ++ [("process_document", "report.v2.pdf")].
Proof.
  intros myblob.
  destruct (blob_trigger_second_segment myblob function_app) as (_ & H & _).
  apply (H "input" "report.v2.pdf"); reflexivity.
Defined.

(** ** The activities *)

(** Unfolds the monad's operations. *)
Ltac unfold_M :=
  unfold mbind, M_bind, bind, mret, M_ret, ret, raise, lift,
    logging.info, logging.error, logging.info_f, logging.log,
    os.environ_getitem, os.environ_get, datetime_now, analyze_document,
    requests.post, blob_service_client.download_blob,
    blob_service_client.upload_blob, client.start_new.

(** *** [write_doc] *)

Lemma write_doc_unfold results w :
  write_doc results w
  = let w1 :=
      set_clock_reads (S (clock_reads w))
        (set_logs (logs w ++ [{| level := INFO;
                                 message := "in write_doc activity";
                                 interpolated := None |}]) w) in
    let summary :=
      WriteDocInput.blobName results +:+ "-"
      +:+ datetime.to_str (clock w (clock_reads w)) in
    let fileName := str.replace "." "-" summary +:+ ".txt" in
    match Summary.content (WriteDocInput.summary results) with
    | JStr s =>
        let w2 :=
          set_logs (logs w1 ++ [{| level := INFO;
                                   message := "uploading to blob" +:+ s;
                                   interpolated := None |}]) w1 in
        match containers w !! "output" with
        | None => (Raise ResourceNotFoundError, w2)
        | Some c =>
            match c !! fileName with
            | Some _ => (Raise ResourceExistsError, w2)
            | None =>
                (Ok (summary +:+ ".txt"),
                 set_containers
                   (<["output" := <[fileName := s]> c]> (containers w)) w2)
            end
        end
    | _ => (Raise TypeError, w1)
    end.
Proof.
  unfold write_doc. unfold_M. unfold str_add. cbv zeta.
  destruct (Summary.content (WriteDocInput.summary results)); try reflexivity.
  cbn [containers set_logs set_clock_reads].
  destruct (containers w !! "output") as [c|]; [|reflexivity].
  destruct (c !! _); reflexivity.
Qed.

Lemma replace_char c d s :
  str.replace (String c EmptyString) (String d EmptyString) s
  = map_chars (fun ch => if Ascii.eqb c ch then d else ch) s.
Proof.
  unfold str.replace. induction s as [|ch s IH]; [done|].
  cbn [str.replace_go map_chars]. rewrite prefix_char.
  cbn [String.length Nat.sub]. rewrite IH.
  by destruct (Ascii.eqb c ch).
Qed.

Lemma replace_dots s : str.replace "." "-" s = dots_to_dashes s.
Proof.
  rewrite replace_char. unfold dots_to_dashes.
  induction s as [|ch s IH]; [done|]. cbn [map_chars]. rewrite IH.
  by rewrite (Ascii.eqb_sym "." ch).
Qed.

Lemma dots_to_dashes_no_dot s : str.has_char "." (dots_to_dashes s) = false.
Proof.
  unfold dots_to_dashes. induction s as [|ch s IH]; [done|].
  cbn [map_chars str.has_char]. rewrite IH.
  rewrite (Ascii.eqb_sym "." _).
  destruct (Ascii.eqb ch ".") eqn:E; [done|]. by rewrite E.
Qed.

(** C3. The name [write_doc] derives is a base name followed by [.txt];
    the base name is the identifier, a dash and the timestamp with every
    [.] replaced by [-] and nothing else changed, so it holds no [.] at
    all. With a string summary, an output container and the name not taken
    there, the activity succeeds and that name is the one blob it adds. *)
Theorem write_doc_name_has_no_dot (results : WriteDocInput.t) (w : world) :
  let summary :=
    WriteDocInput.blobName results +:+ "-"
    +:+ datetime.to_str (clock w (clock_reads w)) in
  let sanitizedSummary := str.replace "." "-" summary in
  let fileName := sanitizedSummary +:+ ".txt" in
  sanitizedSummary = dots_to_dashes summary
  /\ str.has_char "." sanitizedSummary = false
  /\ (forall (s : string) (c : gmap string string),
        Summary.content (WriteDocInput.summary results) = JStr s ->
        containers w !! "output" = Some c ->
        c !! fileName = None ->
        is_ok (write_doc results w).1 = true
        /\ containers (write_doc results w).2
           = <["output" := <[fileName := s]> c]> (containers w)).
Proof.
  cbv zeta. split_and!.
  - apply replace_dots.
  - rewrite replace_dots. apply dots_to_dashes_no_dot.
  - intros s c Hs Hc Hfree.
    rewrite write_doc_unfold. cbv zeta. by rewrite Hs, Hc, Hfree.
Qed.

(** On ["report.v2.pdf"] the base name is
    ["report-v2-pdf-2024-01-01 00:00:00-123456"]. *)
Lemma write_doc_name_has_no_dot_witness :
  let results :=
    {| WriteDocInput.blobName := "report.v2.pdf";
       WriteDocInput.summary := {| Summary.content := JStr "A report." |} |} in
  let fileName := "report-v2-pdf-2024-01-01 00:00:00-123456.txt" in
  is_ok (write_doc results function_app).1 = true
  /\ containers (write_doc results function_app).2
     = <["output" := <[fileName := "A report."]> ∅]> (containers function_app).
Proof.
  intros results fileName.
  destruct (write_doc_name_has_no_dot results function_app) as (_ & _ & H).
  apply (H "A report." ∅); vm_compute; reflexivity.
Defined.

(** C1. On the identifier ["invoice123.pdf"] at 2024-01-01
    00:00:00.123456, [write_doc] uploads the summary as
    ["invoice123-pdf-2024-01-01 00:00:00-123456.txt"] and returns
    ["invoice123.pdf-2024-01-01 00:00:00.123456.txt"], a name under which
    the output container holds nothing. *)
Theorem write_doc_returns_unwritten_name :
  let results :=
    {| WriteDocInput.blobName := "invoice123.pdf";
       WriteDocInput.summary := {| Summary.content := JStr "A $500 invoice." |} |} in
  let output := containers (write_doc results function_app).2 !! "output" in
  (write_doc results function_app).1
  = Ok "invoice123.pdf-2024-01-01 00:00:00.123456.txt"
  /\ output
     = Some {[ "invoice123-pdf-2024-01-01 00:00:00-123456.txt"
                 := "A $500 invoice." ]}
  /\ output ≫= (λ c, c !! "invoice123.pdf-2024-01-01 00:00:00.123456.txt")
     = None.
Proof. cbv zeta. split_and!; vm_compute; reflexivity. Qed.

Lemma length_append (a b : string) :
  String.length (a +:+ b) = String.length a + String.length b.
Proof.
  induction a as [|x a IH]; [done|]. rewrite append_cons. cbn. by rewrite IH.
Qed.

Lemma append_inj_r (a b c : string) : a +:+ c = b +:+ c -> a = b.
Proof.
  revert b. induction a as [|x a IH]; intros [|y b] H.
  - done.
  - exfalso. apply (f_equal String.length) in H.
    rewrite append_nil_l, append_cons in H. cbn in H.
    rewrite length_append in H. lia.
  - exfalso. apply (f_equal String.length) in H.
    rewrite append_nil_l, append_cons in H. cbn in H.
    rewrite length_append in H. lia.
  - rewrite !append_cons in H. injection H as -> H. by rewrite (IH b H).
Qed.

(** The name returned and the name written, in general: they are the same
    string only when neither the identifier nor the timestamp holds a
    [.]. *)
Lemma write_doc_names (results : WriteDocInput.t) (w : world)
  (s : string) (c : gmap string string) :
  let summary :=
    WriteDocInput.blobName results +:+ "-"
    +:+ datetime.to_str (clock w (clock_reads w)) in
  Summary.content (WriteDocInput.summary results) = JStr s ->
  containers w !! "output" = Some c ->
  c !! (dots_to_dashes summary +:+ ".txt") = None ->
  (write_doc results w).1 = Ok (summary +:+ ".txt")
  /\ containers (write_doc results w).2
     = <["output" := <[dots_to_dashes summary +:+ ".txt" := s]> c]>
         (containers w)
  /\ (str.has_char "." summary = true ->
      summary +:+ ".txt" <> dots_to_dashes summary +:+ ".txt").
Proof.
  cbv zeta. intros Hs Hc Hfree.
  rewrite write_doc_unfold. cbv zeta. rewrite Hs, Hc, replace_dots, Hfree.
  split_and!; [done..|].
  intros Hdot Heq. apply append_inj_r in Heq. rewrite Heq in Hdot.
  by rewrite dots_to_dashes_no_dot in Hdot.
Qed.

(** *** [analyze_pdf] *)

Lemma append_assoc (a b c : string) : (a +:+ b) +:+ c = a +:+ (b +:+ c).
Proof. induction a as [|ch a IH]; [done|]. by rewrite !append_cons, IH. Qed.

Lemma append_nil_r (a : string) : a +:+ EmptyString = a.
Proof. induction a as [|ch a IH]; [done|]. by rewrite append_cons, IH. Qed.

Lemma concatenation_app l1 l2 :
  concatenation (l1 ++ l2) = concatenation l1 +:+ concatenation l2.
Proof.
  unfold concatenation. induction l1 as [|x l1 IH]; [done|].
  simpl. by rewrite IH, append_assoc.
Qed.

Lemma lines_loop (lines : list DocumentLine.t) (doc : string) :
  fold_left (fun doc line => doc +:+ DocumentLine.content line) lines doc
  = doc +:+ concatenation (map DocumentLine.content lines).
Proof.
  revert doc. induction lines as [|line lines IH]; intros doc.
  - cbn. by rewrite append_nil_r.
  - simpl. rewrite IH. unfold concatenation. simpl.
    by rewrite append_assoc.
Qed.

Lemma pages_loop (pages : list DocumentPage.t) (doc : string) :
  fold_left
    (fun doc page =>
       fold_left (fun doc line => doc +:+ DocumentLine.content line)
                 (DocumentPage.lines page) doc)
    pages doc
  = doc +:+ concatenation (text_fragments pages).
Proof.
  revert doc. induction pages as [|page pages IH]; intros doc.
  - cbn. by rewrite append_nil_r.
  - simpl. rewrite IH, lines_loop. unfold text_fragments. simpl.
    by rewrite concatenation_app, append_assoc.
Qed.

(** C8. When the blob is there, the analysis endpoint is configured and
    the Document-Analysis service answers with [pages], [analyze_pdf]
    returns the contents of all lines joined into one string, page by page
    and line by line in the order of the answer. *)
Theorem analyze_pdf_concatenates (blobName : string) (w : world)
  (blob endpoint : string) (pages : list DocumentPage.t) :
  containers w !! "input" ≫= (λ c, c !! blobName) = Some blob ->
  environ w !! "COGNITIVE_SERVICES_ENDPOINT" = Some endpoint ->
  analysis_service w (length (analysis_calls w)) endpoint blob = Ok pages ->
  (analyze_pdf blobName w).1 = Ok (concatenation (text_fragments pages)).
Proof.
  intros Hblob Henv Hpages. unfold analyze_pdf. unfold_M.
  cbn [containers environ analysis_service analysis_calls set_logs
       set_analysis_calls].
  rewrite Hblob. cbn [environ set_logs]. rewrite Henv.
  cbn [analysis_service analysis_calls set_logs]. rewrite Hpages.
  cbn [fst]. by rewrite pages_loop.
Qed.

(** Two pages, of two lines and of one line, give ["Invoice for $500"]. *)
Lemma analyze_pdf_concatenates_witness :
  (analyze_pdf "invoice123.pdf" function_app).1
  = Ok (concatenation (text_fragments invoice_pages))
  /\ concatenation (text_fragments invoice_pages) = "Invoice for $500".
Proof.
  split; [|vm_compute; reflexivity].
  apply (analyze_pdf_concatenates "invoice123.pdf" function_app
           "%PDF-1.7" "https://di.example" invoice_pages);
    vm_compute; reflexivity.
Defined.

(** *** [summarize_text] *)

(** What [summarize_text] does with the reply, once the request is sent. *)
Lemma summarize_text_unfold results w endpoint api_key deployment_name :
  environ w !! "AZURE_OPENAI_ENDPOINT" = Some endpoint ->
  environ w !! "AZURE_OPENAI_KEY" = Some api_key ->
  environ w !! "CHAT_MODEL_DEPLOYMENT_NAME" = Some deployment_name ->
  let request :=
    {| url :=
         endpoint +:+ "/openai/deployments/" +:+ deployment_name
         +:+ "/chat/completions?api-version="
         +:+ default "2025-01-01-preview"
                     (environ w !! "AZURE_OPENAI_API_VERSION");
       headers := <["api-key" := api_key]>
                    (<["Content-Type" := "application/json"]> ∅);
       json :=
         {| chat.messages :=
              [ {| chat.role := "user";
                   chat.content :=
                     "Can you explain what the following text is about? "
                     +:+ results |} ];
            chat.max_tokens := 200;
            chat.temperature := (7 # 10)%Q |} |} in
  let w1 :=
    set_http_posts (http_posts w ++ [request])
      (set_logs (logs w ++ [{| level := INFO;
                               message := "in summarize_text activity";
                               interpolated := None |}]) w) in
  summarize_text results w
  = match openai_service w (length (http_posts w)) request with
    | Raise e => (Raise e, w1)
    | Ok response =>
        if bool_decide (Response.status_code response ≠ 200%Z)
        then
          (Raise (Exception_ "Azure OpenAI API call failed"),
           set_logs
             (logs w1 ++
              [{| level := ERROR;
                  message :=
                    "Azure OpenAI call failed: "
                    +:+ str.of_int (Response.status_code response)
                    +:+ " - " +:+ Response.text response;
                  interpolated := None |}]) w1)
        else
          match
            match Response.json_ response with
            | Ok response_json =>
                match jvalue_getitem response_json (SKey "choices") with
                | Ok choices =>
                    match jvalue_getitem choices (SIdx 0) with
                    | Ok choice =>
                        match jvalue_getitem choice (SKey "message") with
                        | Ok message =>
                            jvalue_getitem message (SKey "content")
                        | Raise e => Raise e
                        end
                    | Raise e => Raise e
                    end
                | Raise e => Raise e
                end
            | Raise e => Raise e
            end
          with
          | Ok content =>
              (Ok {| Summary.content := content |},
               set_logs
                 (logs w1 ++ [{| level := INFO; message := "Summary: ";
                                 interpolated := Some content |}]) w1)
          | Raise e => (Raise e, w1)
          end
    end.
Proof.
  intros He Hk Hd. cbv zeta. unfold summarize_text. unfold_M.
  cbn [environ set_logs]. rewrite He. cbn [environ set_logs].
  rewrite Hk. cbn [environ set_logs]. rewrite Hd.
  cbn [environ openai_service http_posts set_logs].
  destruct (openai_service w _ _) as [response|e]; [|reflexivity].
  destruct (bool_decide _); [reflexivity|].
  destruct (Response.json_ response) as [j|e]; [|reflexivity].
  destruct (jvalue_getitem j _) as [choices|e]; [|reflexivity].
  destruct (jvalue_getitem choices _) as [choice|e]; [|reflexivity].
  destruct (jvalue_getitem choice _) as [message|e]; [|reflexivity].
  destruct (jvalue_getitem message _) as [content|e]; reflexivity.
Qed.

(** C9. With the endpoint, the key and the deployment configured,
    [summarize_text] sends exactly one request. Its body holds one user
    message, the text after the fixed prompt, a limit of 200 output tokens
    and temperature 0.7; its URL names the configured API version, and
    [2025-01-01-preview] when none is configured. *)
Theorem summarize_text_request (results : string) (w : world)
  (endpoint api_key deployment_name : string) :
  environ w !! "AZURE_OPENAI_ENDPOINT" = Some endpoint ->
  environ w !! "AZURE_OPENAI_KEY" = Some api_key ->
  environ w !! "CHAT_MODEL_DEPLOYMENT_NAME" = Some deployment_name ->
  exists api_version,
    http_posts (summarize_text results w).2
    = http_posts w ++
      [ {| url :=
             endpoint +:+ "/openai/deployments/" +:+ deployment_name
             +:+ "/chat/completions?api-version=" +:+ api_version;
           headers := {[ "Content-Type" := "application/json";
                         "api-key" := api_key ]};
           json :=
             {| chat.messages :=
                  [ {| chat.role := "user";
                       chat.content :=
                         "Can you explain what the following text is about? "
                         +:+ results |} ];
                chat.max_tokens := 200;
                chat.temperature := (7 # 10)%Q |} |} ]
    /\ (environ w !! "AZURE_OPENAI_API_VERSION" = None ->
        api_version = "2025-01-01-preview")
    /\ (forall v, environ w !! "AZURE_OPENAI_API_VERSION" = Some v ->
        api_version = v).
Proof.
  intros He Hk Hd.
  exists (default "2025-01-01-preview" (environ w !! "AZURE_OPENAI_API_VERSION")).
  split_and!.
  - rewrite (summarize_text_unfold results w _ _ _ He Hk Hd). cbv zeta.
    replace ({[ "Content-Type" := "application/json"; "api-key" := api_key ]}
             : gmap string string)
      with (<["api-key" := api_key]>
              (<["Content-Type" := "application/json"]> ∅) : gmap string string).
    destruct (openai_service w _ _) as [response|e]; [|done].
    destruct (bool_decide _); [done|].
    { by repeat case_match. }
    rewrite (insert_insert_ne _ "api-key" "Content-Type") by done.
    by rewrite insert_empty.
  - by intros ->.
  - by intros v ->.
Qed.

(** The request of the sample app, which configures no API version. *)
Lemma summarize_text_request_witness :
  exists api_version,
    http_posts (summarize_text "Invoice for $500" function_app).2
    = http_posts function_app ++
      [ {| url :=
             "https://oai.example" +:+ "/openai/deployments/" +:+ "gpt"
             +:+ "/chat/completions?api-version=" +:+ api_version;
           headers := {[ "Content-Type" := "application/json";
                         "api-key" := "secret" ]};
           json :=
             {| chat.messages :=
                  [ {| chat.role := "user";
                       chat.content :=
                         "Can you explain what the following text is about? "
                         +:+ "Invoice for $500" |} ];
                chat.max_tokens := 200;
                chat.temperature := (7 # 10)%Q |} |} ]
    /\ (environ function_app !! "AZURE_OPENAI_API_VERSION" = None ->
        api_version = "2025-01-01-preview")
    /\ (forall v, environ function_app !! "AZURE_OPENAI_API_VERSION" = Some v ->
        api_version = v).
Proof.
  apply (summarize_text_request "Invoice for $500" function_app
           "https://oai.example" "secret" "gpt");
    vm_compute; reflexivity.
Defined.

(** C7 (amended). With its three settings configured and a reply from the
    summarization service, [summarize_text] raises whenever the status is
    not 200, after logging an error with the status code and the body; on
    status 200 it returns the record [{content}] exactly when the body is
    JSON in which [choices[0].message.content] exists, [content] being the
    value found there, and raises otherwise. *)
Theorem summarize_text_outcome (results : string) (w : world)
  (endpoint api_key deployment_name : string) (response : Response.t) :
  environ w !! "AZURE_OPENAI_ENDPOINT" = Some endpoint ->
  environ w !! "AZURE_OPENAI_KEY" = Some api_key ->
  environ w !! "CHAT_MODEL_DEPLOYMENT_NAME" = Some deployment_name ->
  (forall request,
      openai_service w (length (http_posts w)) request = Ok response) ->
  (Response.status_code response ≠ 200%Z ->
   (summarize_text results w).1
   = Raise (Exception_ "Azure OpenAI API call failed")
   /\ last (logs (summarize_text results w).2)
      = Some {| level := ERROR;
                message :=
                  "Azure OpenAI call failed: "
                  +:+ str.of_int (Response.status_code response)
                  +:+ " - " +:+ Response.text response;
                interpolated := None |})
  /\ (Response.status_code response = 200%Z ->
      forall content,
        (summarize_text results w).1 = Ok {| Summary.content := content |}
        <-> exists response_json choices choice message,
              Response.json_ response = Ok response_json
              /\ jvalue_getitem response_json (SKey "choices") = Ok choices
              /\ jvalue_getitem choices (SIdx 0) = Ok choice
              /\ jvalue_getitem choice (SKey "message") = Ok message
              /\ jvalue_getitem message (SKey "content") = Ok content).
Proof.
  intros He Hk Hd Hreply.
  rewrite (summarize_text_unfold results w _ _ _ He Hk Hd). cbv zeta.
  rewrite Hreply. split.
  - intros Hs. rewrite bool_decide_eq_true_2 by done. cbn [fst snd logs set_logs].
    split; [done|]. apply last_snoc.
  - intros Hs content. rewrite bool_decide_eq_false_2 by (by intros []).
    split.
    + destruct (Response.json_ response) as [j|e]; [|done].
      destruct (jvalue_getitem j _) as [choices|e] eqn:E1; [|done].
      destruct (jvalue_getitem choices _) as [choice|e] eqn:E2; [|done].
      destruct (jvalue_getitem choice _) as [message|e] eqn:E3; [|done].
      destruct (jvalue_getitem message _) as [c|e] eqn:E4; [|done].
      cbn [fst]. intros [= ->]. by exists j, choices, choice, message.
    + intros (j & choices & choice & message & -> & -> & -> & -> & ->).
      done.
Qed.

(** C7, as stated, fails. The service answers with status 200 and the
    body [{}]: [summarize_text] raises [KeyError] although the status is a
    success. The service answers with status 200 and a first choice whose
    content is [null]: the record returned holds [None], not a string. *)
Lemma summarize_text_raises_on_status_200 :
  (forall n request,
      openai_service (function_app_with no_choices) n request = Ok no_choices)
  /\ Response.status_code no_choices = 200%Z
  /\ (summarize_text "Invoice for $500" (function_app_with no_choices)).1
     = Raise (KeyError (SKey "choices"))
  /\ Response.status_code (completion JNull) = 200%Z
  /\ (summarize_text "Invoice for $500"
        (function_app_with (completion JNull))).1
     = Ok {| Summary.content := JNull |}.
Proof. split_and!; [done|done| |done|]; vm_compute; reflexivity. Qed.

(** A service that answers 503: the step raises, and the error logged
    holds the status and the body. *)
Lemma summarize_text_outcome_witness :
  (summarize_text "Invoice for $500" (function_app_with unavailable)).1
  = Raise (Exception_ "Azure OpenAI API call failed")
  /\ last (logs (summarize_text "Invoice for $500" (function_app_with unavailable)).2)
     = Some {| level := ERROR;
               message :=
                 "Azure OpenAI call failed: " +:+ str.of_int 503
                 +:+ " - " +:+ "Service Unavailable";
               interpolated := None |}.
Proof.
  destruct (summarize_text_outcome "Invoice for $500" (function_app_with unavailable)
              "https://oai.example" "secret" "gpt" unavailable)
    as [H _]; [vm_compute; reflexivity..|reflexivity|].
  apply H. vm_compute. discriminate.
Defined.

(** ** The engine *)

Section EngineFacts.

Context {W : Type}.
Variable run_activity : forall a : activity, arg a -> W -> result (res a) * W.

Lemma attempts_trace retries attempt a o x w :
  step_trace a x (df.first_retry_interval_in_milliseconds o) retries attempt
             (attempts run_activity retries attempt a o x w).1.1
             (attempts run_activity retries attempt a o x w).2.
Proof.
  revert attempt w.
  induction retries as [|retries IH]; intros attempt w; cbn [attempts];
    destruct (run_activity a x w) as [[v|e] w1]; cbn; try constructor.
  specialize (IH (S attempt) w1).
  destruct (attempts run_activity retries (S attempt) a o x w1)
    as [[out w2] h].
  cbn in *. by constructor.
Qed.

(** The run of [process_document], step by step. *)
Lemma run_process_document blobName w :
  let o := document_retry_options in
  run run_activity (process_document blobName) w
  = match call_activity_with_retry run_activity analyze_pdf_ o blobName w with
    | (Raise e, w1, h1) => (Failed e, w1, h1)
    | (Ok result, w1, h1) =>
        match call_activity_with_retry run_activity summarize_text_ o
                                       result w1 with
        | (Raise e, w2, h2) => (Failed e, w2, h1 ++ h2)
        | (Ok result2, w2, h2) =>
            match call_activity_with_retry run_activity write_doc_ o
                    {| WriteDocInput.blobName := blobName;
                       WriteDocInput.summary := result2 |} w2 with
            | (Raise e, w3, h3) => (Failed e, w3, h1 ++ h2 ++ h3)
            | (Ok result3, w3, h3) =>
                (Completed JNull, w3,
                 h1 ++ h2 ++ h3
                 ++ [Logged INFO
                       ("Successfully uploaded summary to " +:+ result3)])
            end
        end
    end.
Proof.
  cbv zeta. unfold process_document. cbn [run].
  destruct (call_activity_with_retry _ analyze_pdf_ _ _ _)
    as [[[v1|e1] w1] h1]; [|done].
  destruct (call_activity_with_retry _ summarize_text_ _ _ _)
    as [[[v2|e2] w2] h2]; [|done].
  destruct (call_activity_with_retry _ write_doc_ _ _ _)
    as [[[v3|e3] w3] h3]; done.
Qed.

End EngineFacts.

(** *** Counting in histories *)

Lemma calls_app a h1 h2 : calls a (h1 ++ h2) = calls a h1 + calls a h2.
Proof. unfold calls. by rewrite List.filter_app, length_app. Qed.

Lemma failures_app a h1 h2 :
  failures a (h1 ++ h2) = failures a h1 + failures a h2.
Proof. unfold failures. by rewrite List.filter_app, length_app. Qed.

Lemma outputs_app h1 h2 : outputs (h1 ++ h2) = outputs h1 ++ outputs h2.
Proof. apply omap_app. Qed.

Lemma inputs_app h1 h2 : inputs (h1 ++ h2) = inputs h1 ++ inputs h2.
Proof. apply omap_app. Qed.

Lemma events_but_app a h1 h2 :
  events_but a (h1 ++ h2) = events_but a h1 ++ events_but a h2.
Proof. apply List.filter_app. Qed.

Section StepTrace.

Context (a : activity) (x : arg a) (delay : Z).

Lemma step_trace_calls retries attempt out h :
  step_trace a x delay retries attempt out h ->
  calls a h = failures a h + match out with Ok _ => 1 | Raise _ => 0 end
  /\ failures a h <= S retries
  /\ (forall e, out = Raise e -> failures a h = S retries)
  /\ (forall v, out = Ok v -> failures a h <= retries).
Proof.
  induction 1 as [r n v|n e|r n e out h Hh IH].
  - unfold calls, failures. cbn. rewrite bool_decide_eq_true_2 by done.
    cbn. split_and!; [lia|lia|done|lia].
  - unfold calls, failures. cbn. rewrite bool_decide_eq_true_2 by done.
    cbn. split_and!; [lia|lia|done|done].
  - rewrite calls_app, failures_app.
    destruct IH as (IH1 & IH2 & IH3 & IH4). rewrite IH1.
    unfold calls at 1, failures at 1 3 4 6. cbn.
    rewrite bool_decide_eq_true_2 by done.
    cbn. split_and!; [lia|lia| |].
    + intros e' ->. specialize (IH3 e' eq_refl). lia.
    + intros v ->. specialize (IH4 v eq_refl). lia.
Qed.

Lemma step_trace_others retries attempt out h b :
  step_trace a x delay retries attempt out h ->
  b <> a -> calls b h = 0 /\ failures b h = 0.
Proof.
  intros Hh Hb. induction Hh as [r n v|n e|r n e out h Hh IH].
  - unfold calls, failures. cbn. by rewrite bool_decide_eq_false_2.
  - unfold calls, failures. cbn. by rewrite bool_decide_eq_false_2.
  - rewrite calls_app, failures_app. destruct IH as [-> ->].
    unfold calls, failures. cbn. by rewrite bool_decide_eq_false_2.
Qed.

Lemma step_trace_outputs retries attempt out h :
  step_trace a x delay retries attempt out h ->
  outputs h = match out with Ok v => [existT a v] | Raise _ => [] end.
Proof.
  induction 1 as [r n v|n e|r n e out h Hh IH]; [done..|].
  by rewrite outputs_app, IH.
Qed.

Lemma step_trace_inputs retries attempt out h :
  step_trace a x delay retries attempt out h ->
  Forall (fun i => i = existT a x) (inputs h).
Proof.
  induction 1 as [r n v|n e|r n e out h Hh IH].
  - repeat constructor.
  - repeat constructor.
  - rewrite inputs_app. apply Forall_app. split; [|done].
    repeat constructor.
Qed.

Lemma step_trace_events_but retries attempt out h :
  step_trace a x delay retries attempt out h -> events_but a h = [].
Proof.
  induction 1 as [r n v|n e|r n e out h Hh IH].
  - unfold events_but. cbn. by rewrite bool_decide_eq_true_2.
  - unfold events_but. cbn. by rewrite bool_decide_eq_true_2.
  - rewrite events_but_app, IH. unfold events_but. cbn.
    by rewrite bool_decide_eq_true_2.
Qed.

End StepTrace.

(** *** The three steps of [process_document] *)

Section Instance.

Context {W : Type}.
Variable run_activity : forall a : activity, arg a -> W -> result (res a) * W.

Lemma call_trace a x w :
  step_trace a x 5000 2 1
    (call_activity_with_retry run_activity a document_retry_options x w).1.1
    (call_activity_with_retry run_activity a document_retry_options x w).2.
Proof. apply (attempts_trace run_activity 2 1 a document_retry_options). Qed.

(** What one step contributes to the counts of step [b]. *)
Lemma call_counts a x w b :
  let r := call_activity_with_retry run_activity a document_retry_options x w in
  (b <> a -> calls b r.2 = 0 /\ failures b r.2 = 0)
  /\ (b = a ->
      calls b r.2 = failures b r.2 + match r.1.1 with Ok _ => 1 | Raise _ => 0 end
      /\ failures b r.2 <= 3
      /\ match r.1.1 with
         | Ok _ => failures b r.2 <= 2
         | Raise _ => failures b r.2 = 3
         end).
Proof.
  intros r. pose proof (call_trace a x w) as Ht. fold r in Ht. split.
  - intros Hb. by eapply step_trace_others.
  - intros ->. destruct (step_trace_calls _ _ _ _ _ _ _ Ht) as (?&?&H3&H4).
    split_and!; [done..|]. destruct (r.1.1) as [v|e]; eauto.
Qed.

(** What one step contributes to the recorded outputs and inputs. *)
Lemma call_records a x w :
  let r := call_activity_with_retry run_activity a document_retry_options x w in
  outputs r.2 = match r.1.1 with Ok v => [existT a v] | Raise _ => [] end
  /\ Forall (fun i => i = existT a x) (inputs r.2)
  /\ events_but a r.2 = [].
Proof.
  intros r. pose proof (call_trace a x w) as Ht. fold r in Ht.
  split_and!.
  - by eapply step_trace_outputs.
  - by eapply step_trace_inputs.
  - by eapply step_trace_events_but.
Qed.

End Instance.

Lemma calls_logged a lvl msg : calls a [Logged lvl msg] = 0.
Proof. reflexivity. Qed.

Lemma failures_logged a lvl msg : failures a [Logged lvl msg] = 0.
Proof. reflexivity. Qed.

(** Instantiates the counting facts [F] of one step at activity [b]. *)
Ltac count_at F b :=
  let H := fresh "Hc" in
  pose proof (F b) as H; cbn [fst snd] in H;
  let H1 := fresh "Hc" in
  let H2 := fresh "Hc" in
  destruct H as [H1 H2];
  first [ specialize (H2 eq_refl); clear H1; destruct H2 as (?&?&?)
        | specialize (H1 ltac:(discriminate)); clear H2; destruct H1 as (?&?) ].

Ltac count_step F :=
  count_at F analyze_pdf_; count_at F summarize_text_; count_at F write_doc_;
  clear F.

(** Runs [process_document] step by step, with the counting facts of every
    step that ran. *)
Ltac run_steps run_activity blobName w :=
  rewrite (run_process_document run_activity blobName w); cbv zeta;
  let F1 := fresh "F" in
  pose proof (call_counts run_activity analyze_pdf_ blobName w) as F1;
  cbv zeta in F1;
  let R1 := fresh "R" in
  pose proof (call_records run_activity analyze_pdf_ blobName w) as R1;
  cbv zeta in R1;
  destruct (call_activity_with_retry run_activity analyze_pdf_ _ blobName w)
    as [[[?v1|?e1] ?w1] ?h1]; count_step F1;
  [ match goal with
    | |- context [call_activity_with_retry run_activity summarize_text_ ?o ?x ?w1] =>
        let F2 := fresh "F" in
        pose proof (call_counts run_activity summarize_text_ x w1) as F2;
        cbv zeta in F2;
        let R2 := fresh "R" in
        pose proof (call_records run_activity summarize_text_ x w1) as R2;
        cbv zeta in R2;
        destruct (call_activity_with_retry run_activity summarize_text_ o x w1)
          as [[[?v2|?e2] ?w2] ?h2]; count_step F2
    end;
    [ match goal with
      | |- context [call_activity_with_retry run_activity write_doc_ ?o ?x ?w2] =>
          let F3 := fresh "F" in
          pose proof (call_counts run_activity write_doc_ x w2) as F3;
          cbv zeta in F3;
          let R3 := fresh "R" in
          pose proof (call_records run_activity write_doc_ x w2) as R3;
          cbv zeta in R3;
          destruct (call_activity_with_retry run_activity write_doc_ o x w2)
            as [[[?v3|?e3] ?w3] ?h3]; count_step F3
      end
    | ]
  | ];
  unfold status, history; cbn [fst snd] in *.

(** Closes a goal on the counts of a concatenated history. *)
Ltac count :=
  cbn [position] in *;
  rewrite ?calls_app, ?failures_app, ?calls_logged, ?failures_logged in *;
  lia.

(** C4. Whatever the steps do, no step of an instance is attempted more
    than three times; a step that failed three times ends the instance in
    [Failed] and no later step is attempted; in particular, when
    [summarize_text] fails three times, [write_doc] is never called. *)
Theorem exhausted_step_fails_instance {W : Type}
  (run_activity : forall a : activity, arg a -> W -> result (res a) * W)
  (blobName : string) (w : W) :
  let r := run run_activity (process_document blobName) w in
  (forall a, calls a (history r) <= 3)
  /\ (forall a, failures a (history r) = 3 ->
        (exists e, status r = Failed e)
        /\ (forall b, position a < position b -> calls b (history r) = 0))
  /\ (failures summarize_text_ (history r) = 3 ->
      calls write_doc_ (history r) = 0).
Proof.
  cbv zeta. run_steps run_activity blobName w.
  all: split_and!.
  all: try (intros []; count).
  all: try count.
  all: intros a Ha; split; [destruct a; first [by eexists | count]|].
  all: intros b; destruct a, b; count.
Qed.

(** With a summarization service that answers 503, [summarize_text] fails
    three times, the instance is [Failed] and [write_doc] is never
    called. *)
Lemma exhausted_step_fails_instance_witness :
  let r := start_process_document "invoice123.pdf" (function_app_with unavailable) in
  failures summarize_text_ (history r) = 3
  /\ status r = Failed (Exception_ "Azure OpenAI API call failed")
  /\ calls write_doc_ (history r) = 0.
Proof.
  intros r. split_and!; [vm_compute; reflexivity..|].
  destruct (exhausted_step_fails_instance activities "invoice123.pdf"
              (function_app_with unavailable)) as (_ & _ & H).
  apply H. vm_compute. reflexivity.
Defined.

Lemma input_inj a (x y : arg a) :
  existT (P := arg) a x = existT a y -> x = y.
Proof. apply (Eqdep_dec.inj_pair2_eq_dec _ activity_eq_dec). Qed.

Lemma input_activity a b (x : arg a) (y : arg b) :
  existT (P := arg) a x = existT b y -> a = b.
Proof. intros H. apply (f_equal (@projT1 _ _)) in H. exact H. Qed.

(** Finds which step an input recorded in a concatenated history belongs
    to. *)
Ltac find_input H :=
  rewrite ?inputs_app in H; cbn [inputs omap] in H;
  rewrite ?elem_of_app in H;
  repeat match type of H with
    | _ \/ _ => destruct H as [H|H]
    end;
  try (by apply elem_of_nil in H);
  match goal with
  | R : Forall _ (inputs ?h) |- _ =>
      match type of H with
      | _ ∈ inputs h =>
          rewrite Forall_forall in R; apply R in H; clear R
      end
  end;
  first [ by apply input_activity in H | apply input_inj in H; subst ].

(** C5. Whatever the steps do, the recorded outputs of an instance are
    those of [analyze_pdf], [summarize_text], [write_doc], in that order,
    or a prefix of them: none skipped, repeated or out of order. Every
    attempt of [analyze_pdf] gets the instance's input, every attempt of
    [summarize_text] the output of [analyze_pdf], every attempt of
    [write_doc] the instance's input with the output of [summarize_text].
    When no step fails three times, the instance records three outputs and
    is [Completed]. *)
Theorem three_steps_in_order {W : Type}
  (run_activity : forall a : activity, arg a -> W -> result (res a) * W)
  (blobName : string) (w : W) :
  let r := run run_activity (process_document blobName) w in
  map projT1 (outputs (history r))
    `prefix_of` [analyze_pdf_; summarize_text_; write_doc_]
  /\ (forall x, existT analyze_pdf_ x ∈ inputs (history r) -> x = blobName)
  /\ (forall x, existT summarize_text_ x ∈ inputs (history r) ->
        outputs (history r) !! 0 = Some (existT analyze_pdf_ x))
  /\ (forall x, existT write_doc_ x ∈ inputs (history r) ->
        exists result2,
          outputs (history r) !! 1 = Some (existT summarize_text_ result2)
          /\ x = {| WriteDocInput.blobName := blobName;
                    WriteDocInput.summary := result2 |})
  /\ ((forall a, failures a (history r) < 3) ->
      (exists out, status r = Completed out)
      /\ map projT1 (outputs (history r))
         = [analyze_pdf_; summarize_text_; write_doc_]).
Proof.
  cbv zeta. run_steps run_activity blobName w.
  all: repeat match goal with H : _ /\ _ |- _ => destruct H as [? H] end.
  all: rewrite ?outputs_app.
  all: repeat match goal with H : outputs _ = _ |- _ => rewrite H; clear H end.
  all: cbn [outputs omap app map projT1].
  all: split_and!.
  all: try (intros x Hx; find_input Hx; by eauto).
  all: try (by eexists).
  all: try (by intros; split; eauto).
  all: try (intros Hf; exfalso).
  - pose proof (Hf write_doc_). count.
  - pose proof (Hf summarize_text_). count.
  - pose proof (Hf analyze_pdf_). count.
Qed.

(** The sample run: three outputs in order, and [Completed]. *)
Lemma three_steps_in_order_witness :
  let r := start_process_document "invoice123.pdf" function_app in
  (exists out, status r = Completed out)
  /\ map projT1 (outputs (history r))
     = [analyze_pdf_; summarize_text_; write_doc_].
Proof.
  intros r.
  destruct (three_steps_in_order activities "invoice123.pdf" function_app)
    as (_ & _ & _ & _ & H).
  apply H. intros a. destruct a; vm_compute; lia.
Defined.

(** C2 (amended). Whatever the steps do, an instance that completes has the
    result [None], the value of the [logging.info] call that the
    orchestrator returns; when all three steps succeed, the instance
    completes with [None], and the name returned by [write_doc] goes into
    the last log message only. *)
Theorem process_document_returns_none {W : Type}
  (run_activity : forall a : activity, arg a -> W -> result (res a) * W)
  (blobName : string) (w : W) :
  let r := run run_activity (process_document blobName) w in
  (forall out, status r = Completed out -> out = JNull)
  /\ (length (outputs (history r)) = 3 ->
      exists name : string,
        status r = Completed JNull
        /\ last (outputs (history r)) = Some (existT write_doc_ name)
        /\ last (history r)
           = Some (Logged INFO ("Successfully uploaded summary to " +:+ name))).
Proof.
  cbv zeta. run_steps run_activity blobName w.
  all: repeat match goal with H : _ /\ _ |- _ => destruct H as [? H] end.
  all: rewrite ?outputs_app.
  all: repeat match goal with H : outputs _ = _ |- _ => rewrite H; clear H end.
  all: cbn [outputs omap app length].
  all: split; [by intros out [= <-] | try (intros; lia)].
  intros _. exists v3. split_and!; [done..|].
  by rewrite !app_assoc, last_snoc.
Qed.

(** The sample run completes with [None] and logs the name. *)
Lemma process_document_returns_none_witness :
  let r := start_process_document "invoice123.pdf" function_app in
  exists name : string,
    status r = Completed JNull
    /\ last (outputs (history r)) = Some (existT write_doc_ name)
    /\ last (history r)
       = Some (Logged INFO ("Successfully uploaded summary to " +:+ name)).
Proof.
  intros r.
  destruct (process_document_returns_none activities "invoice123.pdf" function_app)
    as (_ & H).
  apply H. vm_compute. reflexivity.
Defined.

(** C2, as stated, fails: on ["invoice123.pdf"] all three steps succeed,
    [write_doc] returns a name, and the instance's result is [None]. *)
Lemma process_document_result_is_not_the_name :
  let r := start_process_document "invoice123.pdf" function_app in
  let name := "invoice123.pdf-2024-01-01 00:00:00.123456.txt" in
  last (outputs (history r)) = Some (existT write_doc_ name)
  /\ status r = Completed JNull
  /\ status r <> Completed (JStr name).
Proof. cbv zeta. split_and!; [vm_compute; reflexivity..|]. vm_compute. discriminate. Qed.

(** *** Transient failures of one step *)

Section FlakyFacts.

Context {W : Type}.
Variable run_activity : forall a : activity, arg a -> W -> result (res a) * W.
Variable a : activity.







(** A step whose attempt succeeds is recorded at once. *)
Lemma attempts_first_ok retries attempt o x w v w1 :
  run_activity a x w = (Ok v, w1) ->
  attempts run_activity retries attempt a o x w
  = (Ok v, w1, [TaskScheduled a x attempt; TaskCompleted a v]).
Proof. intros H. destruct retries; cbn [attempts]; by rewrite H. Qed.



End FlakyFacts.


Lemma calls_completed a x n v :
  calls a [TaskScheduled a x n; TaskCompleted a v] = 1.
Proof. unfold calls. cbn. by rewrite bool_decide_eq_true_2. Qed.

Section Invisible.

Context {W : Type}.
Variable run_activity : forall a : activity, arg a -> W -> result (res a) * W.
Variable a : activity.
Variable pending : list exn.



End Invisible.



(** ** More on the activities *)

(** *** [analyze_pdf]: what it needs and what it touches *)

Lemma analyze_pdf_unfold blobName w :
  analyze_pdf blobName w
  = let w1 :=
      set_logs (logs w ++ [{| level := INFO;
                              message := "in analyze_text activity";
                              interpolated := None |}]) w in
    match containers w !! "input" ≫= (λ c, c !! blobName) with
    | None => (Raise ResourceNotFoundError, w1)
    | Some blob =>
        match environ w !! "COGNITIVE_SERVICES_ENDPOINT" with
        | None => (Raise (KeyError (SKey "COGNITIVE_SERVICES_ENDPOINT")), w1)
        | Some endpoint =>
            (match analysis_service w (length (analysis_calls w))
                                    endpoint blob with
             | Ok pages => Ok (concatenation (text_fragments pages))
             | Raise e => Raise e
             end,
             set_analysis_calls (analysis_calls w ++ [(endpoint, blob)]) w1)
        end
    end.
Proof.
  unfold analyze_pdf. unfold_M. cbv zeta.
  cbn [containers environ analysis_service analysis_calls set_logs].
  destruct (containers w !! "input") as [c|]; [|reflexivity].
  cbn [mbind option_bind].
  destruct (c !! blobName) as [blob|]; [|reflexivity].
  cbn [environ set_logs].
  destruct (environ w !! "COGNITIVE_SERVICES_ENDPOINT") as [endpoint|];
    [|reflexivity].
  cbn [analysis_service analysis_calls set_logs].
  destruct (analysis_service w _ endpoint blob) as [pages|e]; [|reflexivity].
  cbn [fst snd]. by rewrite pages_loop.
Qed.



(** X2. When the blob is there and the setting
    [COGNITIVE_SERVICES_ENDPOINT] is missing, [analyze_pdf] raises
    [KeyError] for that setting, after the download and without calling
    the Document-Analysis service. *)
Theorem analyze_pdf_missing_endpoint (blobName blob : string) (w : world) :
  containers w !! "input" ≫= (λ c, c !! blobName) = Some blob ->
  environ w !! "COGNITIVE_SERVICES_ENDPOINT" = None ->
  (analyze_pdf blobName w).1
  = Raise (KeyError (SKey "COGNITIVE_SERVICES_ENDPOINT"))
  /\ analysis_calls (analyze_pdf blobName w).2 = analysis_calls w.
Proof.
  intros Hb He. rewrite analyze_pdf_unfold. cbv zeta. by rewrite Hb, He.
Qed.

(** The sample app without any setting. *)
Lemma analyze_pdf_missing_endpoint_witness :
  let w := set_environ ∅ function_app in
  (analyze_pdf "invoice123.pdf" w).1
  = Raise (KeyError (SKey "COGNITIVE_SERVICES_ENDPOINT"))
  /\ analysis_calls (analyze_pdf "invoice123.pdf" w).2 = analysis_calls w.
Proof.
  intros w.
  apply (analyze_pdf_missing_endpoint "invoice123.pdf" "%PDF-1.7" w);
    vm_compute; reflexivity.
Defined.

(** X3. Whatever it returns, [analyze_pdf] leaves the storage account, the
    settings, the clock and the requests sent to the summarization service
    as they were, starts no instance, writes one log record, and calls the
    Document-Analysis service at most once; it calls it exactly when the
    blob is there and the endpoint is configured, with that endpoint and
    the blob's bytes. *)
Theorem analyze_pdf_effects (blobName : string) (w : world) :
  let w' := (analyze_pdf blobName w).2 in
  containers w' = containers w
  /\ environ w' = environ w
  /\ clock_reads w' = clock_reads w
  /\ http_posts w' = http_posts w
  /\ instances w' = instances w
  /\ length (logs w') = S (length (logs w))
  /\ analysis_calls w'
     = analysis_calls w ++
       match containers w !! "input" ≫= (λ c, c !! blobName),
             environ w !! "COGNITIVE_SERVICES_ENDPOINT" with
       | Some blob, Some endpoint => [(endpoint, blob)]
       | _, _ => []
       end.
Proof.
  cbv zeta. rewrite analyze_pdf_unfold. cbv zeta.
  destruct (containers w !! "input" ≫= _) as [blob|];
    [destruct (environ w !! "COGNITIVE_SERVICES_ENDPOINT") as [endpoint|]|];
    cbn [snd containers environ clock_reads http_posts instances logs
         analysis_calls set_logs set_analysis_calls];
    rewrite ?length_app, ?app_nil_r; cbn [length]; split_and!; (done || lia).
Qed.

(** *** [summarize_text]: what it needs and what it touches *)

(** X4. [summarize_text] reads its three required settings in the order
    endpoint, key, deployment: the first one of them that is missing raises
    [KeyError] for it, and no request is sent. *)
Theorem summarize_text_missing_setting (results k : string) (w : world) :
  List.find (fun k => bool_decide (environ w !! k = None))
            ["AZURE_OPENAI_ENDPOINT"; "AZURE_OPENAI_KEY";
             "CHAT_MODEL_DEPLOYMENT_NAME"]
  = Some k ->
  (summarize_text results w).1 = Raise (KeyError (SKey k))
  /\ http_posts (summarize_text results w).2 = http_posts w.
Proof.
  unfold summarize_text. unfold_M. cbn [List.find environ set_logs].
  destruct (environ w !! "AZURE_OPENAI_ENDPOINT") as [endpoint|].
  2:{ rewrite bool_decide_eq_true_2 by done. by intros [= <-]. }
  rewrite bool_decide_eq_false_2 by done. cbn [environ set_logs].
  destruct (environ w !! "AZURE_OPENAI_KEY") as [api_key|].
  2:{ rewrite bool_decide_eq_true_2 by done. by intros [= <-]. }
  rewrite bool_decide_eq_false_2 by done. cbn [environ set_logs].
  destruct (environ w !! "CHAT_MODEL_DEPLOYMENT_NAME") as [deployment|].
  2:{ rewrite bool_decide_eq_true_2 by done. by intros [= <-]. }
  rewrite bool_decide_eq_false_2 by done. done.
Qed.

(** An app with the key missing: the endpoint is read first and found, the
    key is the first one missing. *)
Lemma summarize_text_missing_setting_witness :
  let w := set_environ {[ "AZURE_OPENAI_ENDPOINT" := "https://oai.example" ]}
                       function_app in
  (summarize_text "Invoice for $500" w).1
  = Raise (KeyError (SKey "AZURE_OPENAI_KEY"))
  /\ http_posts (summarize_text "Invoice for $500" w).2 = http_posts w.
Proof.
  intros w.
  apply (summarize_text_missing_setting "Invoice for $500" "AZURE_OPENAI_KEY" w).
  vm_compute. reflexivity.
Defined.

(** X5. Whatever it returns, [summarize_text] leaves the storage account,
    the settings, the clock and the calls to the Document-Analysis service
    as they were and starts no instance; it sends at most one request, and
    exactly one whenever it returns a summary. *)
Theorem summarize_text_effects (results : string) (w : world) :
  let w' := (summarize_text results w).2 in
  containers w' = containers w
  /\ environ w' = environ w
  /\ clock_reads w' = clock_reads w
  /\ analysis_calls w' = analysis_calls w
  /\ instances w' = instances w
  /\ length (http_posts w') <= S (length (http_posts w))
  /\ (is_ok (summarize_text results w).1 = true ->
      length (http_posts w') = S (length (http_posts w))).
Proof.
  cbv zeta.
  destruct (environ w !! "AZURE_OPENAI_ENDPOINT") as [endpoint|] eqn:He;
    [destruct (environ w !! "AZURE_OPENAI_KEY") as [api_key|] eqn:Hk;
     [destruct (environ w !! "CHAT_MODEL_DEPLOYMENT_NAME")
        as [deployment|] eqn:Hd|]|].
  - rewrite (summarize_text_unfold results w _ _ _ He Hk Hd). cbv zeta.
    repeat case_match;
      cbn [fst snd is_ok containers environ clock_reads analysis_calls
           instances http_posts set_logs set_http_posts];
      rewrite ?length_app; cbn [length]; split_and!; (done || lia).
  - unfold summarize_text. unfold_M. cbn [environ set_logs].
    rewrite He. cbn [environ set_logs]. rewrite Hk. cbn [environ set_logs].
    rewrite Hd. cbn. split_and!; (done || lia).
  - unfold summarize_text. unfold_M. cbn [environ set_logs].
    rewrite He. cbn [environ set_logs]. rewrite Hk. cbn.
    split_and!; (done || lia).
  - unfold summarize_text. unfold_M. cbn [environ set_logs].
    rewrite He. cbn. split_and!; (done || lia).
Qed.

(** X6. When the call to the summarization service itself raises, with the
    settings configured, [summarize_text] raises the same error; the
    request was sent, and nothing is logged after the activity's first
    record: the error report with status and body is written only for a
    reply. *)
Theorem summarize_text_post_error (results : string) (w : world)
  (endpoint api_key deployment_name : string) (e : exn) :
  environ w !! "AZURE_OPENAI_ENDPOINT" = Some endpoint ->
  environ w !! "AZURE_OPENAI_KEY" = Some api_key ->
  environ w !! "CHAT_MODEL_DEPLOYMENT_NAME" = Some deployment_name ->
  (forall request,
      openai_service w (length (http_posts w)) request = Raise e) ->
  (summarize_text results w).1 = Raise e
  /\ length (http_posts (summarize_text results w).2)
     = S (length (http_posts w))
  /\ logs (summarize_text results w).2
     = logs w ++ [{| level := INFO;
                     message := "in summarize_text activity";
                     interpolated := None |}].
Proof.
  intros He Hk Hd Hraise.
  rewrite (summarize_text_unfold results w _ _ _ He Hk Hd). cbv zeta.
  rewrite Hraise. cbn [fst snd http_posts logs set_http_posts set_logs].
  rewrite length_app. cbn [length]. split_and!; (done || lia).
Qed.

(** The service cannot be reached. *)
Lemma summarize_text_post_error_witness :
  (summarize_text "Invoice for $500" unreachable_app).1
  = Raise (ServiceError "connection refused")
  /\ length (http_posts (summarize_text "Invoice for $500" unreachable_app).2)
     = 1.
Proof.
  destruct (summarize_text_post_error "Invoice for $500" unreachable_app
              "https://oai.example" "secret" "gpt"
              (ServiceError "connection refused")) as (H1 & H2 & _);
    [vm_compute; reflexivity..|reflexivity|].
  split; [exact H1|exact H2].
Defined.

(** *** [write_doc]: what it refuses and what it keeps *)

(** X7. When the summary's content is not a string (a [None] from a reply
    whose content was null, say), [write_doc] raises [TypeError] while
    building its log line, and the storage account is left as it was. *)
Theorem write_doc_rejects_non_string (results : WriteDocInput.t) (w : world) :
  (forall s, Summary.content (WriteDocInput.summary results) <> JStr s) ->
  (write_doc results w).1 = Raise TypeError
  /\ containers (write_doc results w).2 = containers w.
Proof.
  intros H. rewrite write_doc_unfold. cbv zeta.
  destruct (Summary.content (WriteDocInput.summary results)) as [| | | |s| |];
    try done.
  by destruct (H s).
Qed.

(** A summary whose content is [None]. *)
Lemma write_doc_rejects_non_string_witness :
  let results :=
    {| WriteDocInput.blobName := "invoice123.pdf";
       WriteDocInput.summary := {| Summary.content := JNull |} |} in
  (write_doc results function_app).1 = Raise TypeError
  /\ containers (write_doc results function_app).2 = containers function_app.
Proof.
  intros results. apply (write_doc_rejects_non_string results function_app).
  intros s. cbn. discriminate.
Defined.

(** X8. [write_doc] never replaces or removes a blob: every blob of every
    container is still there with the same contents afterwards; when the
    derived name is already taken in the output container it raises
    [ResourceExistsError], and whenever it raises, the storage account is
    left as it was. *)
Theorem write_doc_keeps_blobs (results : WriteDocInput.t) (w : world) :
  let w' := (write_doc results w).2 in
  let fileName :=
    str.replace "." "-"
      (WriteDocInput.blobName results +:+ "-"
       +:+ datetime.to_str (clock w (clock_reads w))) +:+ ".txt" in
  (forall container name data,
      containers w !! container ≫= (λ c, c !! name) = Some data ->
      containers w' !! container ≫= (λ c, c !! name) = Some data)
  /\ (is_ok (write_doc results w).1 = false -> containers w' = containers w)
  /\ (forall s data,
        Summary.content (WriteDocInput.summary results) = JStr s ->
        containers w !! "output" ≫= (λ c, c !! fileName) = Some data ->
        (write_doc results w).1 = Raise ResourceExistsError).
Proof.
  cbv zeta. rewrite write_doc_unfold. cbv zeta.
  destruct (Summary.content (WriteDocInput.summary results))
    as [| | | |s| |]; try (split_and!; [done|done|by intros ? ? [=]]).
  destruct (containers w !! "output") as [c|] eqn:Hc.
  2:{ split_and!; [done|done|]. intros ? ? _. cbn. done. }
  set (fileName := str.replace "." "-" _ +:+ ".txt").
  destruct (c !! fileName) as [old|] eqn:Hn.
  - split_and!; [done|done|done].
  - cbn [fst snd is_ok containers set_containers set_logs set_clock_reads].
    split_and!; [|done|].
    + intros container name data Hd.
      destruct (decide (container = "output")) as [->|Hne].
      * rewrite lookup_insert_eq. rewrite Hc in Hd.
        change (c !! name = Some data) in Hd.
        change (<[fileName := s]> c !! name = Some data).
        rewrite lookup_insert_ne; [done|]. intros Heq.
        rewrite Heq, Hd in Hn. discriminate.
      * by rewrite lookup_insert_ne.
    + intros s' data _. cbn. rewrite Hn. done.
Qed.

(** The derived name is already taken in the output container. *)
Lemma write_doc_keeps_blobs_witness :
  let results :=
    {| WriteDocInput.blobName := "invoice123.pdf";
       WriteDocInput.summary := {| Summary.content := JStr "Again." |} |} in
  let w :=
    set_containers
      {[ "output" :=
           {[ "invoice123-pdf-2024-01-01 00:00:00-123456.txt" := "First." ]} ]}
      function_app in
  (write_doc results w).1 = Raise ResourceExistsError
  /\ containers (write_doc results w).2 = containers w.
Proof.
  intros results w.
  destruct (write_doc_keeps_blobs results w) as (_ & Hfail & Htaken).
  assert ((write_doc results w).1 = Raise ResourceExistsError) as E.
  { apply (Htaken "Again." "First."); vm_compute; reflexivity. }
  split; [exact E|]. apply Hfail. rewrite E. reflexivity.
Defined.

(** *** Where the timestamp has a dot *)

Lemma has_char_append c a b :
  str.has_char c (a +:+ b) = str.has_char c a || str.has_char c b.
Proof.
  induction a as [|d a IH]; [done|]. rewrite append_cons.
  cbn [str.has_char]. rewrite IH. by destruct (Ascii.eqb c d).
Qed.

Lemma digits_have_no_dot (d : Decimal.uint) :
  str.has_char "." (NilEmpty.string_of_uint d) = false.
Proof. induction d; cbn [NilEmpty.string_of_uint str.has_char]; done. Qed.

Lemma of_nat_has_no_dot n : str.has_char "." (str.of_nat n) = false.
Proof.
  unfold str.of_nat, NilZero.string_of_uint.
  destruct (Nat.to_uint n) eqn:E; try (rewrite <- E; apply digits_have_no_dot).
  done.
Qed.

Lemma zeros_have_no_dot k :
  str.has_char "." (String.concat "" (List.repeat "0" k)) = false.
Proof.
  induction k as [|k IH]; [done|]. cbn [List.repeat String.concat].
  destruct (List.repeat "0" k) as [|z l] eqn:E; [done|].
  rewrite !has_char_append, IH. done.
Qed.

Lemma zero_padded_has_no_dot w n :
  str.has_char "." (str.zero_padded w n) = false.
Proof.
  unfold str.zero_padded. cbv zeta.
  by rewrite has_char_append, zeros_have_no_dot, of_nat_has_no_dot.
Qed.

(** [str(d)] has a dot exactly when the microseconds are not zero. *)
Lemma datetime_str_dot d :
  str.has_char "." (datetime.to_str d)
  = negb (Nat.eqb (datetime.microsecond d) 0).
Proof.
  unfold datetime.to_str. rewrite !has_char_append, !zero_padded_has_no_dot.
  destruct (datetime.microsecond d) as [|m]; [done|].
  rewrite !has_char_append. done.
Qed.

Lemma dots_to_dashes_id s :
  str.has_char "." s = false -> dots_to_dashes s = s.
Proof.
  unfold dots_to_dashes. induction s as [|c s IH]; [done|].
  cbn [str.has_char map_chars]. rewrite (Ascii.eqb_sym "." c).
  destruct (Ascii.eqb c "."); [done|]. intros H. by rewrite (IH H).
Qed.

(** X9. When [write_doc] succeeds, the name it returns is the name it wrote
    under exactly when the identifier holds no [.] and the timestamp has
    no microseconds; in every other case the returned name differs from
    the blob's. *)
Theorem write_doc_returns_written_name_iff (results : WriteDocInput.t)
  (w : world) (s : string) (c : gmap string string) :
  let now := clock w (clock_reads w) in
  let summary :=
    WriteDocInput.blobName results +:+ "-" +:+ datetime.to_str now in
  let fileName := str.replace "." "-" summary +:+ ".txt" in
  Summary.content (WriteDocInput.summary results) = JStr s ->
  containers w !! "output" = Some c ->
  c !! fileName = None ->
  exists returned,
    (write_doc results w).1 = Ok returned
    /\ containers (write_doc results w).2
       = <["output" := <[fileName := s]> c]> (containers w)
    /\ (returned = fileName
        <-> str.has_char "." (WriteDocInput.blobName results) = false
            /\ datetime.microsecond now = 0).
Proof.
  cbv zeta. intros Hs Hc Hfree.
  rewrite write_doc_unfold. cbv zeta. rewrite Hs, Hc, Hfree.
  eexists. split_and!; [done..|].
  cbn [fst]. rewrite replace_dots.
  set (summary := WriteDocInput.blobName results +:+ _).
  assert (str.has_char "." summary
          = str.has_char "." (WriteDocInput.blobName results)
            || negb (Nat.eqb (datetime.microsecond
                                (clock w (clock_reads w))) 0)) as Hdot.
  { unfold summary. by rewrite !has_char_append, datetime_str_dot. }
  split.
  - intros Heq. apply append_inj_r in Heq.
    assert (str.has_char "." summary = false) as Hno
      by (rewrite Heq; apply dots_to_dashes_no_dot).
    rewrite Hno in Hdot. symmetry in Hdot.
    apply orb_false_iff in Hdot as [Hb Hm]. split; [done|].
    apply negb_false_iff in Hm. by apply Nat.eqb_eq in Hm.
  - intros [Hb Hm]. rewrite Hb, Hm in Hdot. cbn in Hdot.
    by rewrite (dots_to_dashes_id _ Hdot).
Qed.

(** An identifier without dot at a full second: the two names agree. *)
Lemma write_doc_returns_written_name_iff_witness :
  let results :=
    {| WriteDocInput.blobName := "invoice123";
       WriteDocInput.summary := {| Summary.content := JStr "A $500 invoice." |} |} in
  exists returned,
    (write_doc results full_second_app).1 = Ok returned
    /\ containers (write_doc results full_second_app).2
       = <["output" :=
             <["invoice123-2024-01-01 00:00:00.txt" := "A $500 invoice."]> ∅]>
           (containers full_second_app)
    /\ (returned = "invoice123-2024-01-01 00:00:00.txt"
        <-> str.has_char "." "invoice123" = false
            /\ datetime.microsecond (clock full_second_app 0) = 0).
Proof.
  intros results.
  apply (write_doc_returns_written_name_iff results full_second_app
           "A $500 invoice." ∅); vm_compute; reflexivity.
Defined.

(** ** More on the blob trigger *)

Lemma split_go_segments_have_no_sep c s :
  str.has_char c (str.split_go (String c EmptyString) 0 s).1 = false
  /\ Forall (fun seg => str.has_char c seg = false)
            (str.split_go (String c EmptyString) 0 s).2.
Proof.
  induction s as [|d s [IH1 IH2]]; [by split|].
  cbn [str.split_go]. rewrite prefix_char. cbn [String.length Nat.sub].
  destruct (str.split_go (String c EmptyString) 0 s) as [h t].
  cbn [fst snd] in *.
  destruct (Ascii.eqb c d) eqn:E; cbn [fst snd str.has_char].
  - split; [done|]. by constructor.
  - by rewrite E.
Qed.

(** X10. Whatever the blob's path, the trigger writes its log record and
    then either starts exactly one instance, of [process_document], on an
    identifier that holds no ['/'], or raises [IndexError] and starts
    none; it raises nothing else, and it never touches the storage
    account. *)
Theorem blob_trigger_starts_one_or_none (myblob : InputStream.t) (w : world) :
  let w' := (blob_trigger myblob w).2 in
  containers w' = containers w
  /\ length (logs w') = S (length (logs w))
  /\ match (blob_trigger myblob w).1 with
     | Ok _ =>
         exists blobName,
           instances w' = instances w ++ [("process_document", blobName)]
           /\ str.has_char "/" blobName = false
     | Raise e => e = IndexError /\ instances w' = instances w
     end.
Proof.
  cbv zeta. rewrite blob_trigger_unfold. cbv zeta.
  destruct (split_go_segments_have_no_sep "/" (InputStream.name myblob))
    as [_ Hsegs].
  destruct (str.split_go "/" 0 (InputStream.name myblob)) as [h [|seg t]];
    cbn [fst snd containers logs instances set_logs set_instances] in *;
    rewrite length_app; cbn [length]; (split; [done|split; [lia|]]).
  - done.
  - exists seg. split; [done|]. by inversion Hsegs.
Qed.

(** ** More on the orchestrator *)

Lemma timers_app h1 h2 : timers (h1 ++ h2) = timers h1 ++ timers h2.
Proof. apply omap_app. Qed.

Lemma logged_app h1 h2 : logged (h1 ++ h2) = logged h1 ++ logged h2.
Proof. apply omap_app. Qed.


Lemma step_trace_timers a x delay retries attempt out h :
  step_trace a x delay retries attempt out h ->
  Forall (eq delay) (timers h)
  /\ length (timers h) + match out with Ok _ => 0 | Raise _ => 1 end
     = failures a h
  /\ logged h = [].
Proof.
  induction 1 as [r n v|n e|r n e out h Hh (IH1 & IH2 & IH3)].
  - unfold failures. cbn. done.
  - unfold failures. cbn. by rewrite bool_decide_eq_true_2.
  - rewrite timers_app, failures_app, logged_app, IH3, <- IH2.
    unfold failures. cbn. rewrite bool_decide_eq_true_2 by done.
    split_and!; [by constructor|cbn; lia|done].
Qed.

Section InstanceTimers.

Context {W : Type}.
Variable run_activity : forall a : activity, arg a -> W -> result (res a) * W.

(** What one step of [process_document] contributes to the timers and to
    the orchestrator's log. *)
Lemma call_timers (a : activity) (x : arg a) (w : W) :
  let r := call_activity_with_retry run_activity a document_retry_options x w in
  Forall (eq 5000%Z) (timers r.2)
  /\ length (timers r.2) + match r.1.1 with Ok _ => 0 | Raise _ => 1 end
     = failures a r.2
  /\ logged r.2 = [].
Proof.
  intros r.
  apply (step_trace_timers a x 5000 2 1 r.1.1 r.2).
  apply (attempts_trace run_activity 2 1 a document_retry_options).
Qed.

End InstanceTimers.

(** Runs [process_document] step by step like [run_steps], with the timer
    facts of every step that ran besides. *)
Ltac run_steps_timed run_activity blobName w :=
  rewrite (run_process_document run_activity blobName w); cbv zeta;
  let F1 := fresh "F" in
  pose proof (call_counts run_activity analyze_pdf_ blobName w) as F1;
  cbv zeta in F1;
  let T1 := fresh "T" in
  pose proof (call_timers run_activity analyze_pdf_ blobName w) as T1;
  cbv zeta in T1;
  destruct (call_activity_with_retry run_activity analyze_pdf_ _ blobName w)
    as [[[?v1|?e1] ?w1] ?h1]; count_step F1;
  [ match goal with
    | |- context [call_activity_with_retry run_activity summarize_text_ ?o ?x ?w1] =>
        let F2 := fresh "F" in
        pose proof (call_counts run_activity summarize_text_ x w1) as F2;
        cbv zeta in F2;
        let T2 := fresh "T" in
        pose proof (call_timers run_activity summarize_text_ x w1) as T2;
        cbv zeta in T2;
        destruct (call_activity_with_retry run_activity summarize_text_ o x w1)
          as [[[?v2|?e2] ?w2] ?h2]; count_step F2
    end;
    [ match goal with
      | |- context [call_activity_with_retry run_activity write_doc_ ?o ?x ?w2] =>
          let F3 := fresh "F" in
          pose proof (call_counts run_activity write_doc_ x w2) as F3;
          cbv zeta in F3;
          let T3 := fresh "T" in
          pose proof (call_timers run_activity write_doc_ x w2) as T3;
          cbv zeta in T3;
          destruct (call_activity_with_retry run_activity write_doc_ o x w2)
            as [[[?v3|?e3] ?w3] ?h3]; count_step F3
      end
    | ]
  | ];
  unfold status, history; cbn [fst snd] in *;
  repeat match goal with
    | T : Forall _ _ /\ _ |- _ => destruct T as (? & ? & ?)
    end.

(** X11. Whatever the steps do, the orchestrator logs its success message
    exactly when the instance completes: a completed instance has logged
    one record, a failed one none. *)
Theorem success_logged_iff_completed {W : Type}
  (run_activity : forall a : activity, arg a -> W -> result (res a) * W)
  (blobName : string) (w : W) :
  let r := run run_activity (process_document blobName) w in
  match status r with
  | Completed _ => length (logged (history r)) = 1
  | Failed _ => logged (history r) = []
  end.
Proof.
  cbv zeta. run_steps_timed run_activity blobName w.
  all: rewrite ?logged_app.
  all: repeat match goal with H : logged _ = [] |- _ => rewrite H; clear H end.
  all: done.
Qed.


(** ** The pipeline on the function app *)

(** X13. End to end. With the blob in the input container, the four
    settings configured, a Document-Analysis reply, a status-200 reply of
    the summarization service whose first choice carries a string, and the
    derived name free in the output container, the instance completes at
    the first attempt of every step: the text sent on is the joined lines,
    one request is posted, the output container gains one blob, the
    summary under the derived name, and the orchestrator logs the name
    that [write_doc] returned. *)
Theorem pipeline_writes_summary (blobName : string) (w : world)
  (blob endpoint oa_endpoint api_key deployment_name s : string)
  (pages : list DocumentPage.t) (response : Response.t)
  (response_json choices choice message : jvalue)
  (out : gmap string string) :
  let text := concatenation (text_fragments pages) in
  let summary :=
    blobName +:+ "-" +:+ datetime.to_str (clock w (clock_reads w)) in
  let fileName := str.replace "." "-" summary +:+ ".txt" in
  let r := start_process_document blobName w in
  containers w !! "input" ≫= (λ c, c !! blobName) = Some blob ->
  environ w !! "COGNITIVE_SERVICES_ENDPOINT" = Some endpoint ->
  analysis_service w (length (analysis_calls w)) endpoint blob = Ok pages ->
  environ w !! "AZURE_OPENAI_ENDPOINT" = Some oa_endpoint ->
  environ w !! "AZURE_OPENAI_KEY" = Some api_key ->
  environ w !! "CHAT_MODEL_DEPLOYMENT_NAME" = Some deployment_name ->
  (forall request,
      openai_service w (length (http_posts w)) request = Ok response) ->
  Response.status_code response = 200%Z ->
  Response.json_ response = Ok response_json ->
  jvalue_getitem response_json (SKey "choices") = Ok choices ->
  jvalue_getitem choices (SIdx 0) = Ok choice ->
  jvalue_getitem choice (SKey "message") = Ok message ->
  jvalue_getitem message (SKey "content") = Ok (JStr s) ->
  containers w !! "output" = Some out ->
  out !! fileName = None ->
  status r = Completed JNull
  /\ containers (final_state r)
     = <["output" := <[fileName := s]> out]> (containers w)
  /\ length (http_posts (final_state r)) = S (length (http_posts w))
  /\ history r
     = [ TaskScheduled analyze_pdf_ blobName 1;
         TaskCompleted analyze_pdf_ text;
         TaskScheduled summarize_text_ text 1;
         TaskCompleted summarize_text_ {| Summary.content := JStr s |};
         TaskScheduled write_doc_
           {| WriteDocInput.blobName := blobName;
              WriteDocInput.summary := {| Summary.content := JStr s |} |} 1;
         TaskCompleted write_doc_ (summary +:+ ".txt");
         Logged INFO
           ("Successfully uploaded summary to " +:+ (summary +:+ ".txt")) ].
Proof.
  cbv zeta.
  intros Hblob Hep Hpages He Hk Hd Hreply Hstatus Hjson Hc1 Hc2 Hc3 Hc4
         Hout Hfree.
  unfold start_process_document.
  rewrite (run_process_document activities blobName w). cbv zeta.
  unfold call_activity_with_retry.
  cbn [df.max_number_of_attempts document_retry_options Nat.sub].
  (* analyze_pdf *)
  eassert (activities analyze_pdf_ blobName w = (Ok _, _)) as E1.
  { cbn [activities]. rewrite analyze_pdf_unfold. cbv zeta.
    rewrite Hblob, Hep, Hpages. reflexivity. }
  rewrite (attempts_first_ok activities analyze_pdf_ _ _ _ _ _ _ _ E1).
  clear E1.
  (* summarize_text *)
  match goal with
  | |- context [attempts activities 2 1 summarize_text_ _ ?x ?w1] =>
      eassert (activities summarize_text_ x w1 = (Ok _, _)) as E2;
      [ cbn [activities];
        rewrite (summarize_text_unfold x w1 _ _ _ He Hk Hd); cbv zeta;
        cbn [openai_service http_posts set_logs set_analysis_calls];
        rewrite Hreply, bool_decide_eq_false_2 by (by intros []);
        rewrite Hjson, Hc1, Hc2, Hc3, Hc4; reflexivity
      | ]
  end.
  rewrite (attempts_first_ok activities summarize_text_ _ _ _ _ _ _ _ E2).
  clear E2.
  (* write_doc *)
  match goal with
  | |- context [attempts activities 2 1 write_doc_ _ ?x ?w2] =>
      eassert (activities write_doc_ x w2 = (Ok _, _)) as E3
  end.
  { cbn [activities]. rewrite write_doc_unfold. cbv zeta.
    cbn [WriteDocInput.summary WriteDocInput.blobName Summary.content
         containers clock clock_reads environ
         set_logs set_http_posts set_analysis_calls].
    rewrite Hout, Hfree. reflexivity. }
  rewrite (attempts_first_ok activities write_doc_ _ _ _ _ _ _ _ E3).
  clear E3.
  unfold status, final_state, history.
  cbn [fst snd containers http_posts environ
       set_containers set_logs set_http_posts set_analysis_calls
       set_clock_reads].
  rewrite length_app. cbn [length].
  split_and!; [done|done|lia|done].
Qed.

(** The sample run. *)
Lemma pipeline_writes_summary_witness :
  let r := start_process_document "invoice123.pdf" function_app in
  status r = Completed JNull
  /\ containers (final_state r) !! "output"
     = Some {[ "invoice123-pdf-2024-01-01 00:00:00-123456.txt"
                 := "A $500 invoice." ]}.
Proof.
  intros r.
  destruct (pipeline_writes_summary "invoice123.pdf" function_app
              "%PDF-1.7" "https://di.example" "https://oai.example" "secret"
              "gpt" "A $500 invoice." invoice_pages
              (completion (JStr "A $500 invoice."))
              (JObj {[ "choices" :=
                         JArr [ JObj {[ "message" :=
                                          JObj {[ "content" :=
                                                    JStr "A $500 invoice." ]} ]} ] ]})
              (JArr [ JObj {[ "message" :=
                                JObj {[ "content" := JStr "A $500 invoice." ]} ]} ])
              (JObj {[ "message" :=
                         JObj {[ "content" := JStr "A $500 invoice." ]} ]})
              (JObj {[ "content" := JStr "A $500 invoice." ]})
              ∅) as (H1 & H2 & _); try (vm_compute; reflexivity).
  split; [exact H1|]. unfold r. rewrite H2. vm_compute. reflexivity.
Defined.

(** *** Steps that fail at every attempt *)

Section AlwaysFails.

Context {W : Type}.
Variable run_activity : forall a : activity, arg a -> W -> result (res a) * W.

(** A step that fails with [e] in every state satisfying the invariant [P],
    which counts the attempts, fails with [e] after all its attempts. *)
Lemma attempts_always_fail (a : activity) (x : arg a) (e : exn)
  (o : df.RetryOptions) (P : nat -> W -> Prop) :
  (forall k w, P k w ->
     exists w', run_activity a x w = (Raise e, w') /\ P (S k) w') ->
  forall retries attempt k w,
    P k w ->
    exists w' h,
      attempts run_activity retries attempt a o x w = (Raise e, w', h)
      /\ P (k + S retries) w'
      /\ calls a h = S retries
      /\ (forall b, b <> a -> calls b h = 0).
Proof.
  intros Hstep retries.
  induction retries as [|retries IH]; intros attempt k w HP.
  - destruct (Hstep k w HP) as (w' & E & HP').
    exists w', [TaskScheduled a x attempt; TaskFailed a e].
    cbn [attempts]. rewrite E. rewrite Nat.add_1_r.
    split_and!; [done|done| |].
    + unfold calls. cbn. by rewrite bool_decide_eq_true_2.
    + intros b Hb. unfold calls. cbn. by rewrite bool_decide_eq_false_2.
  - destruct (Hstep k w HP) as (w' & E & HP').
    destruct (IH (S attempt) (S k) w' HP') as (w'' & h & E' & HP'' & Hc & Ho).
    exists w''. eexists. cbn [attempts]. rewrite E, E'.
    split_and!; [reflexivity| | |].
    + by rewrite Nat.add_succ_r.
    + rewrite calls_app, Hc. unfold calls. cbn.
      by rewrite bool_decide_eq_true_2.
    + intros b Hb. rewrite calls_app, (Ho b Hb). unfold calls. cbn.
      by rewrite bool_decide_eq_false_2.
Qed.

End AlwaysFails.






(** X16. When the document is analysed and the summarization service
    answers every request with a status other than 200, the instance fails
    with the step's own [Exception] after three attempts of
    [summarize_text]: three requests were posted, [write_doc] never ran
    and the storage account is left as it was. *)
Theorem rejected_summary_fails_instance (blobName : string) (w : world)
  (blob endpoint oa_endpoint api_key deployment_name : string)
  (pages : list DocumentPage.t) (response : Response.t) :
  containers w !! "input" ≫= (λ c, c !! blobName) = Some blob ->
  environ w !! "COGNITIVE_SERVICES_ENDPOINT" = Some endpoint ->
  analysis_service w (length (analysis_calls w)) endpoint blob = Ok pages ->
  environ w !! "AZURE_OPENAI_ENDPOINT" = Some oa_endpoint ->
  environ w !! "AZURE_OPENAI_KEY" = Some api_key ->
  environ w !! "CHAT_MODEL_DEPLOYMENT_NAME" = Some deployment_name ->
  (forall n request, openai_service w n request = Ok response) ->
  Response.status_code response ≠ 200%Z ->
  let r := start_process_document blobName w in
  status r = Failed (Exception_ "Azure OpenAI API call failed")
  /\ calls analyze_pdf_ (history r) = 1
  /\ calls summarize_text_ (history r) = 3
  /\ calls write_doc_ (history r) = 0
  /\ length (http_posts (final_state r)) = length (http_posts w) + 3
  /\ containers (final_state r) = containers w.
Proof.
  intros Hblob Hep Hpages He Hk Hd Hreply Hstatus. cbv zeta.
  unfold start_process_document.
  rewrite (run_process_document activities blobName w). cbv zeta.
  unfold call_activity_with_retry.
  change (df.max_number_of_attempts document_retry_options - 1) with 2.
  eassert (activities analyze_pdf_ blobName w = (Ok _, _)) as E1.
  { cbn [activities]. rewrite analyze_pdf_unfold. cbv zeta.
    rewrite Hblob, Hep, Hpages. reflexivity. }
  rewrite (attempts_first_ok activities analyze_pdf_ _ _ _ _ _ _ _ E1).
  clear E1.
  match goal with
  | |- context [attempts activities 2 1 summarize_text_ _ ?x ?w1] =>
      destruct (attempts_always_fail activities summarize_text_ x
                  (Exception_ "Azure OpenAI API call failed")
                  document_retry_options
                  (fun k w' => environ w' = environ w
                               /\ openai_service w' = openai_service w
                               /\ containers w' = containers w
                               /\ length (http_posts w')
                                  = length (http_posts w) + k))
        with (retries := 2) (attempt := 1) (k := 0) (w := w1)
        as (w' & h & -> & (_ & _ & Hc & Hp) & Hcalls & Hothers)
  end.
  - intros k w0 (Henv & Hsvc & Hc & Hp). eexists. split.
    + cbn [activities].
      rewrite (summarize_text_unfold _ w0 oa_endpoint api_key deployment_name)
        by (by rewrite Henv).
      cbv zeta. rewrite Hsvc, Hreply, bool_decide_eq_true_2 by done.
      reflexivity.
    + cbn [environ openai_service containers http_posts set_logs
           set_http_posts].
      rewrite length_app. cbn [length]. split_and!; [done..|lia].
  - cbn [environ openai_service containers http_posts set_logs
         set_analysis_calls]. split_and!; [done..|lia].
  - unfold status, final_state, history. cbn [fst snd].
    rewrite !calls_app, !calls_completed, Hcalls.
    rewrite !(Hothers analyze_pdf_), !(Hothers write_doc_) by done.
    split_and!; [done| | | |done|done].
    + unfold calls. cbn. reflexivity.
    + unfold calls. cbn. reflexivity.
    + unfold calls. cbn. reflexivity.
Qed.

(** The sample app with a summarization service that answers 503. *)
Lemma rejected_summary_fails_instance_witness :
  let r := start_process_document "invoice123.pdf"
                                  (function_app_with unavailable) in
  status r = Failed (Exception_ "Azure OpenAI API call failed")
  /\ length (http_posts (final_state r)) = 3.
Proof.
  intros r.
  destruct (rejected_summary_fails_instance "invoice123.pdf"
              (function_app_with unavailable) "%PDF-1.7" "https://di.example"
              "https://oai.example" "secret" "gpt" invoice_pages unavailable)
    as (H1 & _ & _ & _ & H2 & _); try (vm_compute; reflexivity).
  - vm_compute. discriminate.
  - split; [exact H1|exact H2].
Defined.

(** X17. A reply with status 200 whose content is not a string (a null
    content, say) passes [summarize_text] and fails the instance at
    [write_doc]: the summary is returned as it is, [write_doc] raises
    [TypeError] at each of its three attempts, and nothing is written. *)
Theorem non_string_summary_fails_instance (blobName : string) (w : world)
  (blob endpoint oa_endpoint api_key deployment_name : string)
  (pages : list DocumentPage.t) (response : Response.t)
  (response_json choices choice message content : jvalue) :
  containers w !! "input" ≫= (λ c, c !! blobName) = Some blob ->
  environ w !! "COGNITIVE_SERVICES_ENDPOINT" = Some endpoint ->
  analysis_service w (length (analysis_calls w)) endpoint blob = Ok pages ->
  environ w !! "AZURE_OPENAI_ENDPOINT" = Some oa_endpoint ->
  environ w !! "AZURE_OPENAI_KEY" = Some api_key ->
  environ w !! "CHAT_MODEL_DEPLOYMENT_NAME" = Some deployment_name ->
  (forall request,
      openai_service w (length (http_posts w)) request = Ok response) ->
  Response.status_code response = 200%Z ->
  Response.json_ response = Ok response_json ->
  jvalue_getitem response_json (SKey "choices") = Ok choices ->
  jvalue_getitem choices (SIdx 0) = Ok choice ->
  jvalue_getitem choice (SKey "message") = Ok message ->
  jvalue_getitem message (SKey "content") = Ok content ->
  (forall s, content <> JStr s) ->
  let r := start_process_document blobName w in
  status r = Failed TypeError
  /\ outputs (history r)
     = [ existT analyze_pdf_ (concatenation (text_fragments pages));
         existT summarize_text_ {| Summary.content := content |} ]
  /\ calls write_doc_ (history r) = 3
  /\ containers (final_state r) = containers w.
Proof.
  intros Hblob Hep Hpages He Hk Hd Hreply Hstatus Hjson Hc1 Hc2 Hc3 Hc4 Hns.
  cbv zeta. unfold start_process_document.
  rewrite (run_process_document activities blobName w). cbv zeta.
  unfold call_activity_with_retry.
  change (df.max_number_of_attempts document_retry_options - 1) with 2.
  eassert (activities analyze_pdf_ blobName w = (Ok _, _)) as E1.
  { cbn [activities]. rewrite analyze_pdf_unfold. cbv zeta.
    rewrite Hblob, Hep, Hpages. reflexivity. }
  rewrite (attempts_first_ok activities analyze_pdf_ _ _ _ _ _ _ _ E1).
  clear E1.
  match goal with
  | |- context [attempts activities 2 1 summarize_text_ _ ?x ?w1] =>
      eassert (activities summarize_text_ x w1 = (Ok _, _)) as E2;
      [ cbn [activities];
        rewrite (summarize_text_unfold x w1 _ _ _ He Hk Hd); cbv zeta;
        cbn [openai_service http_posts set_logs set_analysis_calls];
        rewrite Hreply, bool_decide_eq_false_2 by (by intros []);
        rewrite Hjson, Hc1, Hc2, Hc3, Hc4; reflexivity
      | ]
  end.
  rewrite (attempts_first_ok activities summarize_text_ _ _ _ _ _ _ _ E2).
  clear E2.
  match goal with
  | |- context [attempts activities 2 1 write_doc_ _ ?x ?w2] =>
      destruct (attempts_always_fail activities write_doc_ x TypeError
                  document_retry_options
                  (fun _ w' => containers w' = containers w))
        with (retries := 2) (attempt := 1) (k := 0) (w := w2)
        as (w' & h & E3 & Hc & Hcalls & Hothers)
  end.
  - intros _ w0 Hc. eexists. split.
    + cbn [activities]. rewrite write_doc_unfold. cbv zeta.
      cbn [WriteDocInput.summary Summary.content].
      destruct content; try reflexivity. by destruct (Hns s).
    + done.
  - done.
  - rewrite E3. unfold status, final_state, history. cbn [fst snd].
    pose proof (attempts_trace activities 2 1 write_doc_
                  document_retry_options) as Ht.
    match type of E3 with
    | attempts _ _ _ _ _ ?x ?w2 = _ => specialize (Ht x w2)
    end.
    rewrite E3 in Ht. cbn [fst snd] in Ht.
    apply step_trace_outputs in Ht.
    rewrite !outputs_app, !calls_app, Ht, Hcalls.
    split_and!; [done|done| |done].
    unfold calls. cbn. reflexivity.
Qed.

(** The sample app with a reply whose content is null. *)
Lemma non_string_summary_fails_instance_witness :
  let r := start_process_document "invoice123.pdf"
                                  (function_app_with (completion JNull)) in
  status r = Failed TypeError
  /\ calls write_doc_ (history r) = 3
  /\ containers (final_state r)
     = containers (function_app_with (completion JNull)).
Proof.
  intros r.
  destruct (non_string_summary_fails_instance "invoice123.pdf"
              (function_app_with (completion JNull))
              "%PDF-1.7" "https://di.example" "https://oai.example" "secret"
              "gpt" invoice_pages (completion JNull)
              (JObj {[ "choices" :=
                         JArr [ JObj {[ "message" :=
                                          JObj {[ "content" := JNull ]} ]} ] ]})
              (JArr [ JObj {[ "message" := JObj {[ "content" := JNull ]} ]} ])
              (JObj {[ "message" := JObj {[ "content" := JNull ]} ]})
              (JObj {[ "content" := JNull ]})
              JNull) as (H1 & _ & H2 & H3); try (vm_compute; reflexivity).
  - intros s. discriminate.
  - split_and!; [exact H1|exact H2|exact H3].
Defined.
